(** * Shallow embedding of the better-auth feature-flags plugin

    Source: src/src/server (hook-helpers.ts, endpoints/features.ts,
    endpoints/organization-features.ts, endpoints/feature-flags.ts,
    schema.ts, hooks.ts) and src/src/shared/types.ts.

    The generic record store (better-auth's adapter) is modelled as the
    in-memory adapter: a row matches a where-clause when the row's field
    equals the value ([record[field] === value]).  Before it runs a query
    on the [feature] model, whose schema is schema.ts, the adapter resolves
    every where-field through that schema and throws
    [BetterAuthError("Field <f> not found in model features")] for a field
    the schema lacks; the other models' schemas are not part of this
    repository, and every query on them names fields they have.  Every
    endpoint runs better-auth's [sessionMiddleware] first ([use:
    [sessionMiddleware]]), which throws [APIError("UNAUTHORIZED")] when the
    request has no session.  A thrown error is the outcome [RThrow].  Every
    write call is recorded in a write log, so that "no store write" is
    observable.  Hooks are pure functions of their arguments: their own I/O
    is opaque to the pipeline and they never touch the store. *)

From Stdlib Require Import String List ZArith Bool Lia.
From Stdlib Require BinaryString.
From Stdlib Require Import Sorted Permutation.
#[local] Set Warnings "-register-all".
Import ListNotations.
Open Scope string_scope.

(** ** Values, rows and where-clauses of the adapter *)

Inductive value :=
| VStr (s : string)
| VBool (b : bool)
| VNull.

Definition value_eqb (v w : value) : bool :=
  match v, w with
  | VStr a, VStr b => String.eqb a b
  | VBool a, VBool b => Bool.eqb a b
  | VNull, VNull => true
  | _, _ => false
  end.

Inductive operator :=
| eq (v : value)
| in_ (vs : list string).

Record Where := mkWhere { field : string; op : operator }.

Definition where_eq (f : string) (v : value) : Where := mkWhere f (eq v).

Section Query.
Variable R : Type.
(** [get r f] is [record[f]]; [None] stands for [undefined]. *)
Variable get : R -> string -> option value.

Definition clause_matches (c : Where) (r : R) : bool :=
  match op c, get r (field c) with
  | eq v, Some w => value_eqb v w
  | in_ vs, Some (VStr s) => existsb (String.eqb s) vs
  | _, _ => false
  end.

Definition where_matches (ws : list Where) (r : R) : bool :=
  forallb (fun c => clause_matches c r) ws.

Definition find_rows (ws : list Where) (rows : list R) : option R :=
  find (where_matches ws) rows.

Definition filter_rows (ws : list Where) (rows : list R) : list R :=
  filter (where_matches ws) rows.
End Query.

Arguments clause_matches {R} get c r.
Arguments where_matches {R} get ws r.
Arguments find_rows {R} get ws rows.
Arguments filter_rows {R} get ws rows.

(** ** Data model (schema.ts, shared/types.ts) *)

(** A [feature] row.  [description] is nullable; [updatedAt] is not
    required and has no default in the schema. *)
Record Feature := mkFeature {
  f_id : string;
  f_name : string;
  f_displayName : string;
  f_description : option string;
  f_active : bool;
  f_createdAt : nat;
  f_updatedAt : option nat
}.

(** The store schema of [feature] has the columns id, name, displayName,
    description, active, createdAt, updatedAt; there is no [enabled]
    column. *)
Definition feature_get (f : Feature) (fld : string) : option value :=
  if String.eqb fld "id" then Some (VStr (f_id f))
  else if String.eqb fld "name" then Some (VStr (f_name f))
  else if String.eqb fld "displayName" then Some (VStr (f_displayName f))
  else if String.eqb fld "description" then
    Some (match f_description f with Some d => VStr d | None => VNull end)
  else if String.eqb fld "active" then Some (VBool (f_active f))
  else None.

(** A per-organization flag row ([organizationFeature] in
    organization-features.ts, [featureFlag] in feature-flags.ts; both
    endpoint files run the same code on their own table). *)
Record Flag := mkFlag {
  ff_id : string;
  ff_organizationId : string;
  ff_featureId : string;
  ff_enabled : bool;
  ff_createdAt : nat;
  ff_updatedAt : option nat
}.

Definition flag_get (x : Flag) (fld : string) : option value :=
  if String.eqb fld "id" then Some (VStr (ff_id x))
  else if String.eqb fld "organizationId" then Some (VStr (ff_organizationId x))
  else if String.eqb fld "featureId" then Some (VStr (ff_featureId x))
  else if String.eqb fld "enabled" then Some (VBool (ff_enabled x))
  else None.

Record User := mkUser { u_id : string; u_role : string }.

Definition user_get (u : User) (fld : string) : option value :=
  if String.eqb fld "id" then Some (VStr (u_id u))
  else if String.eqb fld "role" then Some (VStr (u_role u))
  else None.

Record Member := mkMember {
  m_id : string;
  m_organizationId : string;
  m_userId : string
}.

Definition member_get (m : Member) (fld : string) : option value :=
  if String.eqb fld "id" then Some (VStr (m_id m))
  else if String.eqb fld "organizationId" then Some (VStr (m_organizationId m))
  else if String.eqb fld "userId" then Some (VStr (m_userId m))
  else None.

Record Organization := mkOrganization { o_id : string }.

Definition organization_get (o : Organization) (fld : string) : option value :=
  if String.eqb fld "id" then Some (VStr (o_id o)) else None.

(** [FlagWithDetails]: a flag joined with its feature.  In the set path the
    feature comes from a [findOne] cast to [Feature], hence the option. *)
Record FlagWithDetails := mkFlagWithDetails {
  wd_id : string;
  wd_organizationId : string;
  wd_featureId : string;
  wd_enabled : bool;
  wd_createdAt : nat;
  wd_updatedAt : option nat;
  wd_feature : option Feature
}.

(** [{ success: boolean }] *)
Record Success := mkSuccess { success : bool }.

(** Input payloads.  [name] and [displayName] are required strings (their
    emptiness is checked by the code); optional fields are options. *)
Record CreateFeatureInput := mkCreateFeatureInput {
  ci_name : string;
  ci_displayName : string;
  ci_description : option string;
  ci_active : option bool
}.

(** [description] present-with-null is [Some None]. *)
Record UpdateFeatureInput := mkUpdateFeatureInput {
  ui_displayName : option string;
  ui_description : option (option string);
  ui_active : option bool
}.

Record SetOrganizationFeatureInput := mkSetInput { si_enabled : bool }.

(** Hook data typed [unknown] (list/get/delete hooks): a JSON value. *)
Inductive json :=
| JNull
| JBool (b : bool)
| JNum (z : Z)
| JStr (s : string)
| JArr (l : list json)
| JObj (kvs : list (string * json)).

(** JavaScript truthiness of a JSON value. *)
Definition truthy (j : json) : bool :=
  match j with
  | JNull => false
  | JBool b => b
  | JNum z => negb (Z.eqb z 0)
  | JStr s => negb (String.eqb s "")
  | JArr _ | JObj _ => true
  end.

(** [x || []] for an optional unknown value. *)
Definition or_empty (d : option json) : json :=
  match d with
  | Some j => if truthy j then j else JArr []
  | None => JArr []
  end.

(** Errors thrown out of an endpoint handler: better-auth's [APIError]
    (with its code and HTTP status) and the adapter's [BetterAuthError]. *)
Inductive thrown :=
| APIError (code : string) (httpStatus : Z)
| BetterAuthError (msg : string).

(** ** The store and its adapter, as a state monad with a write log *)

Inductive write_op :=
| WCreate (model : string)
| WUpdate (model : string) (ws : list Where)
| WDelete (model : string) (ws : list Where).

Record Store := mkStore {
  features : list Feature;
  flags : list Flag;
  users : list User;
  members : list Member;
  organizations : list Organization;
  next_id : nat;
  clock : nat;
  writes : list write_op
}.

Definition M (A : Type) := Store -> A * Store.

Definition ret {A} (a : A) : M A := fun s => (a, s).

Definition bind {A B} (m : M A) (k : A -> M B) : M B :=
  fun s => let (a, s') := m s in k a s'.

Notation "x <- m ;; k" := (bind m (fun x => k))
  (at level 61, m at next level, right associativity).

(** A step that may throw: the continuation runs on [inl], and [inr e]
    ends the computation with [handler e]. *)
Definition bind_ok {A B} (m : M (A + thrown)) (k : A -> M B)
    (handler : thrown -> B) : M B :=
  r <- m ;;
  match r with
  | inl a => k a
  | inr e => ret (handler e)
  end.

Definition fresh_id (n : nat) : string := "id" ++ BinaryString.of_nat n.

Definition findOne_user (ws : list Where) : M (option User) :=
  fun s => (find_rows user_get ws (users s), s).

Definition findOne_member (ws : list Where) : M (option Member) :=
  fun s => (find_rows member_get ws (members s), s).

Definition findOne_organization (ws : list Where) : M (option Organization) :=
  fun s => (find_rows organization_get ws (organizations s), s).

(** The fields of the [features] table in schema.ts ([id] is implicit). *)
Definition feature_fields : list string :=
  ["id"; "name"; "displayName"; "description"; "active"; "createdAt";
   "updatedAt"].

(** The adapter's field resolution on a where-clause: the first field that
    the model does not have raises [BetterAuthError]. *)
Definition check_where (model : string) (fields : list string)
    (ws : list Where) : option thrown :=
  match find (fun c => negb (existsb (String.eqb (field c)) fields)) ws with
  | Some c => Some (BetterAuthError ("Field " ++ field c ++ " not found in model " ++ model))
  | None => None
  end.

Definition findOne_feature (ws : list Where) : M (option Feature + thrown) :=
  fun s =>
    match check_where "features" feature_fields ws with
    | Some e => (inr e, s)
    | None => (inl (find_rows feature_get ws (features s)), s)
    end.

Definition findMany_feature (ws : list Where) : M (list Feature + thrown) :=
  fun s =>
    match check_where "features" feature_fields ws with
    | Some e => (inr e, s)
    | None => (inl (filter_rows feature_get ws (features s)), s)
    end.

Definition findOne_flag (ws : list Where) : M (option Flag) :=
  fun s => (find_rows flag_get ws (flags s), s).

Definition findMany_flag (ws : list Where) : M (list Flag) :=
  fun s => (filter_rows flag_get ws (flags s), s).

(** [adapter.create({ model: "feature", data })]: the adapter assigns the
    id and [createdAt]; [updatedAt] has no default. *)
Definition create_feature (name displayName : string)
    (description : option string) (active : bool) : M Feature :=
  fun s =>
    let f := mkFeature (fresh_id (next_id s)) name displayName description
               active (clock s) None in
    (f, mkStore (features s ++ [f]) (flags s) (users s) (members s)
          (organizations s) (S (next_id s)) (clock s)
          (writes s ++ [WCreate "feature"])).

(** The [update] object of [adapter.update]: a field is written iff it is
    present ([Some]). *)
Record FeaturePatch := mkFeaturePatch {
  p_displayName : option string;
  p_description : option (option string);
  p_active : option bool
}.

Definition apply_patch (p : FeaturePatch) (f : Feature) : Feature :=
  mkFeature (f_id f)
    (f_name f)
    (match p_displayName p with Some d => d | None => f_displayName f end)
    (match p_description p with Some d => d | None => f_description f end)
    (match p_active p with Some a => a | None => f_active f end)
    (f_createdAt f)
    (f_updatedAt f).

(** [adapter.update({ model: "feature", where, update })]: patches the
    matching rows and returns the (first) updated row, or [null]. *)
Definition update_feature (ws : list Where) (p : FeaturePatch)
    : M (option Feature + thrown) :=
  fun s =>
    match check_where "features" feature_fields ws with
    | Some e => (inr e, s)
    | None =>
      let fs := map (fun f => if where_matches feature_get ws f
                              then apply_patch p f else f) (features s) in
      (inl (option_map (apply_patch p) (find_rows feature_get ws (features s))),
       mkStore fs (flags s) (users s) (members s) (organizations s)
         (next_id s) (clock s) (writes s ++ [WUpdate "feature" ws]))
    end.

Definition delete_feature (ws : list Where) : M (unit + thrown) :=
  fun s =>
    match check_where "features" feature_fields ws with
    | Some e => (inr e, s)
    | None =>
      (inl tt, mkStore (filter (fun f => negb (where_matches feature_get ws f))
                          (features s))
                 (flags s) (users s) (members s) (organizations s)
                 (next_id s) (clock s) (writes s ++ [WDelete "feature" ws]))
    end.

Definition create_flag (organizationId featureId : string) (enabled : bool)
    : M Flag :=
  fun s =>
    let x := mkFlag (fresh_id (next_id s)) organizationId featureId enabled
               (clock s) None in
    (x, mkStore (features s) (flags s ++ [x]) (users s) (members s)
          (organizations s) (S (next_id s)) (clock s)
          (writes s ++ [WCreate "organizationFeature"])).

(** [adapter.delete({ model, where })] on the flag table; [model] is
    ["organizationFeature"] in organization-features.ts and ["featureFlag"]
    in feature-flags.ts. *)
Definition delete_flag (model : string) (ws : list Where) : M unit :=
  fun s =>
    (tt, mkStore (features s)
           (filter (fun x => negb (where_matches flag_get ws x)) (flags s))
           (users s) (members s) (organizations s)
           (next_id s) (clock s) (writes s ++ [WDelete model ws])).

(** ** Hook pipeline (hook-helpers.ts, hooks.ts) *)

Record HookError := mkHookError { message : string; status : option Z }.

Record BeforeHookResult (T : Type) := mkBeforeHookResult {
  bh_data : option T;
  bh_error : option HookError;
  bh_skip : option bool
}.
Arguments mkBeforeHookResult {T} bh_data bh_error bh_skip.
Arguments bh_data {T} _.
Arguments bh_error {T} _.
Arguments bh_skip {T} _.

Record AfterHookResult (T : Type) := mkAfterHookResult {
  ah_data : option T;
  ah_error : option HookError
}.
Arguments mkAfterHookResult {T} ah_data ah_error.
Arguments ah_data {T} _.
Arguments ah_error {T} _.

(** The value returned by [runBeforeHook]. *)
Record BeforeOutcome (T : Type) := mkBeforeOutcome {
  skip : bool;
  data : option T;
  error : option HookError
}.
Arguments mkBeforeOutcome {T} skip data error.
Arguments skip {T} _.
Arguments data {T} _.
Arguments error {T} _.

Definition runBeforeHook {Args T} (hook : option (Args -> BeforeHookResult T))
    (args : Args) : BeforeOutcome T :=
  match hook with
  | None => mkBeforeOutcome false None None
  | Some h =>
      let result := h args in
      match bh_error result with
      | Some e => mkBeforeOutcome true None (Some e)
      | None =>
          mkBeforeOutcome
            (match bh_skip result with Some b => b | None => false end)
            (bh_data result) None
      end
  end.

Definition runAfterHook {Args T} (hook : option (Args -> AfterHookResult T))
    (args : Args) : AfterHookResult T :=
  match hook with
  | None => mkAfterHookResult None None
  | Some h => h args
  end.

Record Session := mkSession {
  user_id : string;
  activeOrganizationId : option string
}.

Record HookContext := mkHookContext { session : option Session }.

(** [options?.hooks?.<operation>]: an absent entry has neither hook. *)
Record Hooks (BA T AA A : Type) := mkHooks {
  before : option (BA -> BeforeHookResult T);
  after : option (AA -> AfterHookResult A)
}.
Arguments mkHooks {BA T AA A} before after.
Arguments before {BA T AA A} _.
Arguments after {BA T AA A} _.

(** A [ctx.json(...)] response: an error with its status, the skipped
    before-hook's [{ data }], the action's [{ data }], or a bare body; or
    an error thrown out of the handler ([RThrow]). *)
Inductive response (S A : Type) :=
| RError (msg : string) (status : Z)
| RSkipped (d : S)
| RData (d : A)
| RBare (d : A)
| RThrow (e : thrown).
Arguments RError {S A} msg status.
Arguments RSkipped {S A} d.
Arguments RData {S A} d.
Arguments RBare {S A} d.
Arguments RThrow {S A} e.

(** A feature-model step of a handler: a thrown error ends the handler
    with [RThrow]. *)
Notation "x <-? m ;; k" := (bind_ok m (fun x => k) RThrow)
  (at level 61, m at next level, right associativity).

(** better-auth's [sessionMiddleware], run before every handler:
    [if (!session?.session) throw new APIError("UNAUTHORIZED")]. *)
Definition sessionMiddleware {S A} (sess : option Session)
    (handler : M (response S A)) : M (response S A) :=
  match sess with
  | None => ret (RThrow (APIError "UNAUTHORIZED" 401))
  | Some _ => handler
  end.

(** [status || default] *)
Definition status_or (default : Z) (st : option Z) : Z :=
  match st with
  | Some z => if Z.eqb z 0 then default else z
  | None => default
  end.

(** Abort with the before-hook error: status defaults to 400. *)
Definition before_error {S A} (e : HookError) : response S A :=
  RError (message e) (status_or 400 (status e)).

(** The common tail of every endpoint:
    [if (afterResult.error) return ctx.json({error}, {status: status || 500});
     return ctx.json(wrap(afterResult.data || orig));] *)
Definition respond_after {S A B} (wrap : B -> response S B) (inj : A -> B)
    (afterResult : AfterHookResult A) (orig : B) : response S B :=
  match ah_error afterResult with
  | Some e => RError (message e) (status_or 500 (status e))
  | None => wrap (match ah_data afterResult with Some d => inj d | None => orig end)
  end.

(** [String.prototype.includes] *)
Fixpoint str_includes (needle hay : string) : bool :=
  String.prefix needle hay ||
  match hay with
  | EmptyString => false
  | String _ rest => str_includes needle rest
  end.

(** ** Endpoints of features.ts *)

(** The handlers' own [if (!session?.user) return 401]; behind
    [sessionMiddleware] it is not reached. *)
Definition unauthorized {S A} : response S A := RError "Unauthorized" 401.
Definition forbidden_admin {S A} : response S A :=
  RError "Forbidden: Admin access required" 403.

(** [adapter.findOne({ model: "user", where: id = session.user.id })] then
    [if (!user || !user.role.includes("admin")) return 403]. *)
Definition require_admin_includes {S A} (sess : Session)
    (k : M (response S A)) : M (response S A) :=
  user <- findOne_user [where_eq "id" (VStr (user_id sess))] ;;
  match user with
  | Some u => if str_includes "admin" (u_role u) then k else ret forbidden_admin
  | None => ret forbidden_admin
  end.

(** [if (!user || user.role !== "admin") return 403] *)
Definition require_admin_exact {S A} (sess : Session)
    (k : M (response S A)) : M (response S A) :=
  user <- findOne_user [where_eq "id" (VStr (user_id sess))] ;;
  match user with
  | Some u => if String.eqb (u_role u) "admin" then k else ret forbidden_admin
  | None => ret forbidden_admin
  end.

Definition CreateFeatureHooks := Hooks (CreateFeatureInput * HookContext)
  CreateFeatureInput (Feature * CreateFeatureInput * HookContext) Feature.

Definition createFeature (hooks : CreateFeatureHooks) (sess : option Session)
    (body : CreateFeatureInput)
    : M (response (option CreateFeatureInput) Feature) :=
  sessionMiddleware sess (
  let hookContext := mkHookContext sess in
  let beforeResult := runBeforeHook (before hooks) (body, hookContext) in
  if skip beforeResult then
    match error beforeResult with
    | Some e => ret (before_error e)
    | None => ret (RSkipped (data beforeResult))
    end
  else
  let inputData := match data beforeResult with Some d => d | None => body end in
  match sess with
  | None => ret unauthorized
  | Some s =>
    require_admin_includes s
      (if String.eqb (ci_name inputData) "" || String.eqb (ci_displayName inputData) ""
       then ret (RError "name and displayName are required" 400)
       else
       existing <-? findOne_feature [where_eq "name" (VStr (ci_name inputData))] ;;
       match existing with
       | Some _ => ret (RError "Feature with this name already exists" 409)
       | None =>
         feature <- create_feature (ci_name inputData) (ci_displayName inputData)
                      (match ci_description inputData with
                       | Some d => if String.eqb d "" then None else Some d
                       | None => None
                       end)
                      (match ci_active inputData with Some a => a | None => true end) ;;
         let afterResult := runAfterHook (after hooks) (feature, inputData, hookContext) in
         ret (respond_after RBare id afterResult feature)
       end)
  end).

Definition ListFeaturesHooks := Hooks HookContext json
  (list Feature * HookContext) (list Feature).

(** [findMany] with [sortBy: { field: "createdAt", direction: "desc" }]. *)
Fixpoint insert_desc (f : Feature) (l : list Feature) : list Feature :=
  match l with
  | [] => [f]
  | g :: r => if Nat.leb (f_createdAt g) (f_createdAt f) then f :: g :: r
              else g :: insert_desc f r
  end.

Definition sort_createdAt_desc (l : list Feature) : list Feature :=
  fold_right insert_desc [] l.

Definition listFeatures (hooks : ListFeaturesHooks) (sess : option Session)
    : M (response json (list Feature)) :=
  sessionMiddleware sess (
  let hookContext := mkHookContext sess in
  let beforeResult := runBeforeHook (before hooks) hookContext in
  if skip beforeResult then
    match error beforeResult with
    | Some e => ret (before_error e)
    | None => ret (RSkipped (or_empty (data beforeResult)))
    end
  else
  match sess with
  | None => ret unauthorized
  | Some s =>
    require_admin_includes s
      (fs <-? findMany_feature [] ;;
       let features := sort_createdAt_desc fs in
       let afterResult := runAfterHook (after hooks) (features, hookContext) in
       ret (respond_after RBare id afterResult features))
  end).

Definition UpdateFeatureHooks := Hooks (string * UpdateFeatureInput * HookContext)
  UpdateFeatureInput (option Feature * string * UpdateFeatureInput * HookContext)
  Feature.

(** The spread [...(x !== undefined && { x })] of each field. *)
Definition update_patch (inputData : UpdateFeatureInput) : FeaturePatch :=
  mkFeaturePatch (ui_displayName inputData) (ui_description inputData)
    (ui_active inputData).

Definition updateFeature (hooks : UpdateFeatureHooks) (sess : option Session)
    (featureId : string) (body : UpdateFeatureInput)
    : M (response (option UpdateFeatureInput) (option Feature)) :=
  sessionMiddleware sess (
  let hookContext := mkHookContext sess in
  let beforeResult := runBeforeHook (before hooks) (featureId, body, hookContext) in
  if skip beforeResult then
    match error beforeResult with
    | Some e => ret (before_error e)
    | None => ret (RSkipped (data beforeResult))
    end
  else
  let inputData := match data beforeResult with Some d => d | None => body end in
  match sess with
  | None => ret unauthorized
  | Some s =>
    require_admin_includes s
      (existing <-? findOne_feature [where_eq "id" (VStr featureId)] ;;
       match existing with
       | None => ret (RError "Feature not found" 404)
       | Some _ =>
         feature <-? update_feature [where_eq "id" (VStr featureId)]
                      (update_patch inputData) ;;
         let afterResult := runAfterHook (after hooks)
                              (feature, featureId, inputData, hookContext) in
         ret (respond_after RBare Some afterResult feature)
       end)
  end).

Definition DeleteFeatureHooks := Hooks (string * HookContext) json
  (Success * string * HookContext) Success.

Definition deleteFeature (hooks : DeleteFeatureHooks) (sess : option Session)
    (featureId : string) : M (response json Success) :=
  sessionMiddleware sess (
  let hookContext := mkHookContext sess in
  let beforeResult := runBeforeHook (before hooks) (featureId, hookContext) in
  if skip beforeResult then
    match error beforeResult with
    | Some e => ret (before_error e)
    | None => ret (RData (mkSuccess true))
    end
  else
  match sess with
  | None => ret unauthorized
  | Some s =>
    require_admin_includes s
      (existing <-? findOne_feature [where_eq "id" (VStr featureId)] ;;
       match existing with
       | None => ret (RError "Feature not found" 404)
       | Some _ =>
         _ <-? delete_feature [where_eq "id" (VStr featureId)] ;;
         let result := mkSuccess true in
         let afterResult := runAfterHook (after hooks)
                              (result, featureId, hookContext) in
         ret (respond_after RBare id afterResult (mkSuccess true))
       end)
  end).

Definition ToggleFeatureHooks := Hooks (string * bool * HookContext) bool
  (option Feature * string * bool * HookContext) Feature.

(** [body] is [{ active: boolean }]; [bodyActive] is [body.active]. *)
Definition toggleFeature (hooks : ToggleFeatureHooks) (sess : option Session)
    (featureId : string) (bodyActive : bool)
    : M (response (option bool) (option Feature)) :=
  sessionMiddleware sess (
  let hookContext := mkHookContext sess in
  let beforeResult := runBeforeHook (before hooks)
                        (featureId, bodyActive, hookContext) in
  if skip beforeResult then
    match error beforeResult with
    | Some e => ret (before_error e)
    | None => ret (RSkipped (data beforeResult))
    end
  else
  let active := match data beforeResult with Some d => d | None => bodyActive end in
  match sess with
  | None => ret unauthorized
  | Some s =>
    require_admin_includes s
      (existing <-? findOne_feature [where_eq "id" (VStr featureId)] ;;
       match existing with
       | None => ret (RError "Feature not found" 404)
       | Some _ =>
         feature <-? update_feature [where_eq "id" (VStr featureId)]
                      (mkFeaturePatch None None (Some active)) ;;
         let afterResult := runAfterHook (after hooks)
                              (feature, featureId, active, hookContext) in
         ret (respond_after RBare Some afterResult feature)
       end)
  end).

Definition GetAvailableFeatureRowsHooks := Hooks HookContext json
  (list Feature * HookContext) (list Feature).

(** features.ts, lines 558-623 ([createGetAvailableFeaturesEndpoint],
    not wired by the plugin): every active feature, for any caller with a
    session. *)
Definition features_getAvailableFeatures (hooks : GetAvailableFeatureRowsHooks)
    (sess : option Session) : M (response json (list Feature)) :=
  sessionMiddleware sess (
  let hookContext := mkHookContext sess in
  let beforeResult := runBeforeHook (before hooks) hookContext in
  if skip beforeResult then
    match error beforeResult with
    | Some e => ret (before_error e)
    | None => ret (RSkipped (or_empty (data beforeResult)))
    end
  else
  match sess with
  | None => ret unauthorized
  | Some _ =>
    features <-? findMany_feature [where_eq "active" (VBool true)] ;;
    let afterResult := runAfterHook (after hooks) (features, hookContext) in
    ret (respond_after RBare id afterResult features)
  end).

(** ** Endpoints of organization-features.ts *)

Definition SetOrganizationFeatureHooks :=
  Hooks (string * string * SetOrganizationFeatureInput * HookContext)
    SetOrganizationFeatureInput
    (FlagWithDetails * string * string * SetOrganizationFeatureInput * HookContext)
    FlagWithDetails.

(** [{ ...orgFeature, feature: featureDetails }] *)
Definition with_details (x : Flag) (feature : option Feature) : FlagWithDetails :=
  mkFlagWithDetails (ff_id x) (ff_organizationId x) (ff_featureId x)
    (ff_enabled x) (ff_createdAt x) (ff_updatedAt x) feature.

(** Lines 77-151: the validations and the write of the set operation, run
    once the caller is an admin. *)
Definition setOrganizationFeature_main (organizationId featureId : string)
    (inputData : SetOrganizationFeatureInput)
    : M (response (option SetOrganizationFeatureInput) FlagWithDetails
         + FlagWithDetails) :=
  bind_ok (findOne_feature [where_eq "id" (VStr featureId)]) (fun feature =>
  match feature with
  | None => ret (inl (RError "Feature not found" 404))
  | Some f =>
    if negb (f_active f) then ret (inl (RError "Feature is not enabled globally" 400))
    else
    organization <- findOne_organization [where_eq "id" (VStr organizationId)] ;;
    match organization with
    | None => ret (inl (RError "Organization not found" 404))
    | Some _ =>
      existingOrgFeature <- findOne_flag
        [where_eq "organizationId" (VStr organizationId);
         where_eq "featureId" (VStr featureId)] ;;
      match existingOrgFeature with
      | Some _ => ret (inl (RError "Organization feature already exists" 409))
      | None =>
        orgFeature <- create_flag organizationId featureId (si_enabled inputData) ;;
        bind_ok (findOne_feature [where_eq "id" (VStr featureId)]) (fun featureDetails =>
        ret (inr (with_details orgFeature featureDetails)))
          (fun e => inl (RThrow e))
      end
    end
  end) (fun e => inl (RThrow e)).

Definition setOrganizationFeature (hooks : SetOrganizationFeatureHooks)
    (sess : option Session) (organizationId featureId : string)
    (body : SetOrganizationFeatureInput)
    : M (response (option SetOrganizationFeatureInput) FlagWithDetails) :=
  sessionMiddleware sess (
  let hookContext := mkHookContext sess in
  let beforeResult := runBeforeHook (before hooks)
                        (organizationId, featureId, body, hookContext) in
  if skip beforeResult then
    match error beforeResult with
    | Some e => ret (before_error e)
    | None => ret (RSkipped (data beforeResult))
    end
  else
  let inputData := match data beforeResult with Some d => d | None => body end in
  match sess with
  | None => ret unauthorized
  | Some s =>
    require_admin_exact s
      (r <- setOrganizationFeature_main organizationId featureId inputData ;;
       match r with
       | inl err => ret err
       | inr resultData =>
         let afterResult := runAfterHook (after hooks)
               (resultData, organizationId, featureId, inputData, hookContext) in
         ret (respond_after RData id afterResult resultData)
       end)
  end).

Definition RemoveFlagHooks := Hooks (string * string * HookContext) json
  (Success * string * string * HookContext) Success.

(** Lines 245-280 of either file: look the flag up by the compound key,
    then delete by its internal id; [model] is the file's flag model and
    [notFound] its message. *)
Definition remove_flag_main (model notFound : string) (organizationId featureId : string)
    : M (response json Success + Success) :=
  existing <- findOne_flag
    [where_eq "organizationId" (VStr organizationId);
     where_eq "featureId" (VStr featureId)] ;;
  match existing with
  | None => ret (inl (RError notFound 404))
  | Some x =>
    _ <- delete_flag model [where_eq "id" (VStr (ff_id x))] ;;
    ret (inr (mkSuccess true))
  end.

Definition removeOrganizationFeature (hooks : RemoveFlagHooks)
    (sess : option Session) (organizationId featureId : string)
    : M (response json Success) :=
  sessionMiddleware sess (
  let hookContext := mkHookContext sess in
  let beforeResult := runBeforeHook (before hooks)
                        (organizationId, featureId, hookContext) in
  if skip beforeResult then
    match error beforeResult with
    | Some e => ret (before_error e)
    | None => ret (RData (mkSuccess true))
    end
  else
  match sess with
  | None => ret unauthorized
  | Some s =>
    require_admin_exact s
      (r <- remove_flag_main "organizationFeature" "Organization feature not found" organizationId featureId ;;
       match r with
       | inl err => ret err
       | inr result =>
         let afterResult := runAfterHook (after hooks)
               (result, organizationId, featureId, hookContext) in
         ret (respond_after RData id afterResult (mkSuccess true))
       end)
  end).

(** [new Map(features.map(f => [f.id, f])).get(k)]: the last entry wins. *)
Fixpoint map_get (features : list Feature) (k : string) : option Feature :=
  match features with
  | [] => None
  | f :: rest =>
    match map_get rest k with
    | Some g => Some g
    | None => if String.eqb (f_id f) k then Some f else None
    end
  end.

(** [orgFeatures.filter(of => featureMap.has(of.featureId)).map(...)] *)
Definition join_flags (orgFeatures : list Flag) (features : list Feature)
    : list FlagWithDetails :=
  map (fun x => with_details x (map_get features (ff_featureId x)))
    (filter (fun x => match map_get features (ff_featureId x) with
                      | Some _ => true | None => false end) orgFeatures).

(** The two queries of the read paths and the join.  [activeField] is the
    feature column the second query filters on. *)
Definition live_flags (activeField organizationId : string)
    : M (list FlagWithDetails + thrown) :=
  orgFeatures <- findMany_flag
    [where_eq "organizationId" (VStr organizationId);
     where_eq "enabled" (VBool true)] ;;
  bind_ok (findMany_feature
    [mkWhere "id" (in_ (map ff_featureId orgFeatures));
     where_eq activeField (VBool true)]) (fun features =>
  ret (inl (join_flags orgFeatures features))) inr.

Definition GetOrgFlagsHooks := Hooks (string * HookContext) json
  (list FlagWithDetails * string * HookContext) (list FlagWithDetails).

Definition member_where (organizationId userId : string) : list Where :=
  [where_eq "organizationId" (VStr organizationId);
   where_eq "userId" (VStr userId)].

Definition getOrganizationFeatures (hooks : GetOrgFlagsHooks)
    (sess : option Session) (organizationId : string)
    : M (response json (list FlagWithDetails)) :=
  sessionMiddleware sess (
  let hookContext := mkHookContext sess in
  let beforeResult := runBeforeHook (before hooks) (organizationId, hookContext) in
  if skip beforeResult then
    match error beforeResult with
    | Some e => ret (before_error e)
    | None => ret (RSkipped (or_empty (data beforeResult)))
    end
  else
  match sess with
  | None => ret unauthorized
  | Some s =>
    membership <- findOne_member (member_where organizationId (user_id s)) ;;
    match membership with
    | None => ret (RError "Forbidden: Not a member of this organization" 403)
    | Some _ =>
      enabledFeatures <-? live_flags "active" organizationId ;;
      let afterResult := runAfterHook (after hooks)
                           (enabledFeatures, organizationId, hookContext) in
      ret (respond_after RData id afterResult enabledFeatures)
    end
  end).

Definition GetAvailableHooks := Hooks HookContext json
  (list FlagWithDetails * HookContext) (list FlagWithDetails).

(** organization-features.ts, lines 436-569: the feature query filters on
    [field: "enabled"] (line 527), a field the feature model lacks. *)
Definition getAvailableFeatures (hooks : GetAvailableHooks)
    (sess : option Session) : M (response json (list FlagWithDetails)) :=
  sessionMiddleware sess (
  let hookContext := mkHookContext sess in
  let beforeResult := runBeforeHook (before hooks) hookContext in
  if skip beforeResult then
    match error beforeResult with
    | Some e => ret (before_error e)
    | None => ret (RSkipped (or_empty (data beforeResult)))
    end
  else
  match sess with
  | None => ret unauthorized
  | Some s =>
    match activeOrganizationId s with
    | None => ret (RData [])
    | Some activeOrganizationId =>
      membership <- findOne_member (member_where activeOrganizationId (user_id s)) ;;
      match membership with
      | None => ret (RData [])
      | Some _ =>
        enabledFeatures <-? live_flags "enabled" activeOrganizationId ;;
        let afterResult := runAfterHook (after hooks) (enabledFeatures, hookContext) in
        ret (respond_after RData id afterResult enabledFeatures)
      end
    end
  end).

(** ** Endpoints of feature-flags.ts *)

Definition getFeatureFlags (hooks : GetOrgFlagsHooks)
    (sess : option Session) (organizationId : string)
    : M (response json (list FlagWithDetails)) :=
  sessionMiddleware sess (
  let hookContext := mkHookContext sess in
  let beforeResult := runBeforeHook (before hooks) (organizationId, hookContext) in
  if skip beforeResult then
    match error beforeResult with
    | Some e => ret (before_error e)
    | None => ret (RSkipped (or_empty (data beforeResult)))
    end
  else
  match sess with
  | None => ret unauthorized
  | Some s =>
    membership <- findOne_member (member_where organizationId (user_id s)) ;;
    match membership with
    | None => ret (RError "Forbidden: Not a member of this organization" 403)
    | Some _ =>
      enabledFeatureFlags <-? live_flags "active" organizationId ;;
      let afterResult := runAfterHook (after hooks)
                           (enabledFeatureFlags, organizationId, hookContext) in
      ret (respond_after RData id afterResult enabledFeatureFlags)
    end
  end).

(** feature-flags.ts, lines 436-569: the feature query filters on
    [field: "active"] (line 527). *)
Definition getAvailableFeatures_ff (hooks : GetAvailableHooks)
    (sess : option Session) : M (response json (list FlagWithDetails)) :=
  sessionMiddleware sess (
  let hookContext := mkHookContext sess in
  let beforeResult := runBeforeHook (before hooks) hookContext in
  if skip beforeResult then
    match error beforeResult with
    | Some e => ret (before_error e)
    | None => ret (RSkipped (or_empty (data beforeResult)))
    end
  else
  match sess with
  | None => ret unauthorized
  | Some s =>
    match activeOrganizationId s with
    | None => ret (RData [])
    | Some activeOrganizationId =>
      membership <- findOne_member (member_where activeOrganizationId (user_id s)) ;;
      match membership with
      | None => ret (RData [])
      | Some _ =>
        enabledFeatureFlags <-? live_flags "active" activeOrganizationId ;;
        let afterResult := runAfterHook (after hooks)
                             (enabledFeatureFlags, hookContext) in
        ret (respond_after RData id afterResult enabledFeatureFlags)
      end
    end
  end).

Definition removeFeatureFlag (hooks : RemoveFlagHooks)
    (sess : option Session) (organizationId featureId : string)
    : M (response json Success) :=
  sessionMiddleware sess (
  let hookContext := mkHookContext sess in
  let beforeResult := runBeforeHook (before hooks)
                        (organizationId, featureId, hookContext) in
  if skip beforeResult then
    match error beforeResult with
    | Some e => ret (before_error e)
    | None => ret (RData (mkSuccess true))
    end
  else
  match sess with
  | None => ret unauthorized
  | Some s =>
    require_admin_exact s
      (r <- remove_flag_main "featureFlag" "Feature flag not found" organizationId featureId ;;
       match r with
       | inl err => ret err
       | inr result =>
         let afterResult := runAfterHook (after hooks)
               (result, organizationId, featureId, hookContext) in
         ret (respond_after RData id afterResult (mkSuccess true))
       end)
  end).

(** ** Sample data *)

Definition no_hooks {BA T AA A} : Hooks BA T AA A := mkHooks None None.

Definition feature_beta (active : bool) : Feature :=
  mkFeature "f1" "beta" "Beta" None active 0 None.

Definition store0 (active : bool) (flagRows : list Flag) : Store :=
  mkStore [feature_beta active] flagRows [mkUser "u1" "admin"]
    [mkMember "m1" "o1" "u1"] [mkOrganization "o1"] 0 0 [].

Definition admin_session : Session := mkSession "u1" (Some "o1").

Definition flag_o1_f1 (i : string) (enabled : bool) : Flag :=
  mkFlag i "o1" "f1" enabled 0 None.

Example getFeatureFlags_sample :
  fst (getFeatureFlags no_hooks (Some admin_session) "o1"
         (store0 true [flag_o1_f1 "x1" true]))
  = RData [with_details (flag_o1_f1 "x1" true) (Some (feature_beta true))].
Proof. reflexivity. Qed.

Example getAvailableFeatures_sample :
  fst (getAvailableFeatures no_hooks (Some admin_session)
         (store0 true [flag_o1_f1 "x1" true])) =
  RThrow (BetterAuthError "Field enabled not found in model features").
Proof. reflexivity. Qed.

Example setOrganizationFeature_sample :
  fst (setOrganizationFeature no_hooks (Some admin_session) "o1" "f1"
         (mkSetInput false) (store0 false [])) =
  RError "Feature is not enabled globally" 400.
Proof. reflexivity. Qed.

(** ** Auxiliary facts *)

Lemma runBeforeHook_error_skip {Args T} (h : option (Args -> BeforeHookResult T))
    (args : Args) (e : HookError) :
  error (runBeforeHook h args) = Some e -> skip (runBeforeHook h args) = true.
Proof.
  destruct h as [h|]; simpl; [|discriminate].
  destruct (bh_error (h args)); simpl; congruence.
Qed.

Lemma runBeforeHook_no_error_when_not_skipping {Args T}
    (h : option (Args -> BeforeHookResult T)) (args : Args) :
  skip (runBeforeHook h args) = false -> error (runBeforeHook h args) = None.
Proof.
  destruct h as [h|]; simpl; [|reflexivity].
  destruct (bh_error (h args)); simpl; [discriminate|reflexivity].
Qed.

Ltac run_monad :=
  unfold sessionMiddleware, bind_ok, bind, ret, findOne_user, findOne_member, findOne_feature,
    findOne_flag, findOne_organization, findMany_flag, findMany_feature in *.

(** ** C1 *)

(** C1 (code_bug).  For the member "u1" of the active organization "o1",
    with a flag (o1, f1) enabled and feature f1 active, the
    organization-features get-available read does not return the flag:
    its feature query filters on the field [enabled], which the [feature]
    schema does not have, so the adapter throws
    "Field enabled not found in model features" and the store is left as
    it was; the feature-flags.ts version of the same read, which filters
    on [active], returns the joined flag. *)
Theorem C1_getAvailableFeatures_enabled_field_throws :
  getAvailableFeatures no_hooks (Some admin_session)
    (store0 true [flag_o1_f1 "x1" true]) =
    (RThrow (BetterAuthError "Field enabled not found in model features"),
     store0 true [flag_o1_f1 "x1" true]) /\
  fst (getAvailableFeatures_ff no_hooks (Some admin_session)
         (store0 true [flag_o1_f1 "x1" true])) =
    RData [with_details (flag_o1_f1 "x1" true) (Some (feature_beta true))].
Proof. split; reflexivity. Qed.

(** ** C3 *)






(** ** C5 *)


(** C5.  [runBeforeHook] passes through when no hook is registered; a
    hook error forces [skip = true]; otherwise [skip] defaults to [false]
    and the hook's data is forwarded.  In create-feature, for a request
    with a session (without one [sessionMiddleware] rejects it before the
    hook runs), a hook error aborts with that error (status defaulting to
    400) and the store is untouched, and forwarded data replaces the body
    as the input of the main action. *)
Theorem C5_before_hook_normalisation :
  (forall Args T (args : Args),
     runBeforeHook (T := T) None args = mkBeforeOutcome false None None) /\
  (forall Args T (h : Args -> BeforeHookResult T) args e,
     bh_error (h args) = Some e ->
     runBeforeHook (Some h) args = mkBeforeOutcome true None (Some e)) /\
  (forall Args T (h : Args -> BeforeHookResult T) args,
     bh_error (h args) = None ->
     runBeforeHook (Some h) args =
     mkBeforeOutcome (match bh_skip (h args) with Some b => b | None => false end)
       (bh_data (h args)) None) /\
  status_or 400 None = 400%Z /\
  (forall (hooks : CreateFeatureHooks) (ss : Session) body s e,
     error (runBeforeHook (before hooks) (body, mkHookContext (Some ss))) = Some e ->
     createFeature hooks (Some ss) body s =
     (RError (message e) (status_or 400 (status e)), s)) /\
  (forall (hooks : CreateFeatureHooks) (ss : Session) body s d,
     skip (runBeforeHook (before hooks) (body, mkHookContext (Some ss))) = false ->
     data (runBeforeHook (before hooks) (body, mkHookContext (Some ss))) = Some d ->
     createFeature hooks (Some ss) body s =
     createFeature (mkHooks None (after hooks)) (Some ss) d s).
Proof.
  split; [|split; [|split; [|split; [|split]]]].
  - reflexivity.
  - intros Args T h args e He; simpl; rewrite He; reflexivity.
  - intros Args T h args He; simpl; rewrite He; reflexivity.
  - reflexivity.
  - intros hooks ss body s e He.
    pose proof (runBeforeHook_error_skip _ _ _ He) as Hs.
    unfold createFeature, sessionMiddleware; simpl; rewrite Hs, He; reflexivity.
  - intros hooks ss body s d Hs Hd.
    unfold createFeature at 1; unfold sessionMiddleware; simpl.
    rewrite Hs, Hd; reflexivity.
Qed.

(** ** C9 *)

(** C9.  A signed-in caller whose membership in the active organization
    is missing gets a successful empty list from get-available-features
    (both files), whereas the get-flags-for-organization reads (both
    files) fail with Forbidden; none of them touches the store. *)
Theorem C9_non_member_reads :
  forall (h1 h2 : GetAvailableHooks) (h3 h4 : GetOrgFlagsHooks)
         (uid org : string) (s : Store),
    let sess := Some (mkSession uid (Some org)) in
    skip (runBeforeHook (before h1) (mkHookContext sess)) = false ->
    skip (runBeforeHook (before h2) (mkHookContext sess)) = false ->
    skip (runBeforeHook (before h3) (org, mkHookContext sess)) = false ->
    skip (runBeforeHook (before h4) (org, mkHookContext sess)) = false ->
    find_rows member_get (member_where org uid) (members s) = None ->
    getAvailableFeatures h1 sess s = (RData [], s) /\
    getAvailableFeatures_ff h2 sess s = (RData [], s) /\
    getOrganizationFeatures h3 sess org s =
      (RError "Forbidden: Not a member of this organization" 403, s) /\
    getFeatureFlags h4 sess org s =
      (RError "Forbidden: Not a member of this organization" 403, s).
Proof.
  intros h1 h2 h3 h4 uid org s sess H1 H2 H3 H4 Hm.
  unfold getAvailableFeatures, getAvailableFeatures_ff,
    getOrganizationFeatures, getFeatureFlags; subst sess; run_monad.
  rewrite H1, H2, H3, H4; simpl; rewrite Hm.
  repeat split.
Qed.

(** ** C10 *)


(** ** C4 *)

Definition flag_key (organizationId featureId : string) : list Where :=
  [where_eq "organizationId" (VStr organizationId);
   where_eq "featureId" (VStr featureId)].

Lemma find_app {A} (p : A -> bool) (l1 l2 : list A) :
  find p (l1 ++ l2) = match find p l1 with Some y => Some y | None => find p l2 end.
Proof. induction l1 as [|a l1 IH]; simpl; [reflexivity|]. destruct (p a); auto. Qed.

Lemma flag_key_matches (x : Flag) :
  where_matches flag_get (flag_key (ff_organizationId x) (ff_featureId x)) x = true.
Proof.
  unfold where_matches, flag_key, clause_matches, where_eq; simpl.
  rewrite !String.eqb_refl; reflexivity.
Qed.

(** C4.  The set operation (after the admin check) fails NotFound when
    the feature is missing, fails with status 400 when the feature is
    inactive whatever [enabled] is requested, fails NotFound when the
    organization is missing, fails Conflict when a flag for the pair
    exists, and otherwise appends a flag with exactly the requested
    [enabled]; a second call for the same pair then fails Conflict
    whatever its [enabled].  Failures leave the store unchanged. *)
Theorem C4_set_flag_validation :
  forall (organizationId featureId : string)
         (inputData : SetOrganizationFeatureInput) (s : Store),
    (find_rows feature_get [where_eq "id" (VStr featureId)] (features s) = None ->
       setOrganizationFeature_main organizationId featureId inputData s =
       (inl (RError "Feature not found" 404), s)) /\
    (forall f,
       find_rows feature_get [where_eq "id" (VStr featureId)] (features s) = Some f ->
       f_active f = false ->
       setOrganizationFeature_main organizationId featureId inputData s =
       (inl (RError "Feature is not enabled globally" 400), s)) /\
    (forall f,
       find_rows feature_get [where_eq "id" (VStr featureId)] (features s) = Some f ->
       f_active f = true ->
       find_rows organization_get [where_eq "id" (VStr organizationId)]
         (organizations s) = None ->
       setOrganizationFeature_main organizationId featureId inputData s =
       (inl (RError "Organization not found" 404), s)) /\
    (forall f o x,
       find_rows feature_get [where_eq "id" (VStr featureId)] (features s) = Some f ->
       f_active f = true ->
       find_rows organization_get [where_eq "id" (VStr organizationId)]
         (organizations s) = Some o ->
       find_rows flag_get (flag_key organizationId featureId) (flags s) = Some x ->
       setOrganizationFeature_main organizationId featureId inputData s =
       (inl (RError "Organization feature already exists" 409), s)) /\
    (forall f o,
       find_rows feature_get [where_eq "id" (VStr featureId)] (features s) = Some f ->
       f_active f = true ->
       find_rows organization_get [where_eq "id" (VStr organizationId)]
         (organizations s) = Some o ->
       find_rows flag_get (flag_key organizationId featureId) (flags s) = None ->
       let r := setOrganizationFeature_main organizationId featureId inputData s in
       (exists fd, fst r = inr fd /\ wd_enabled fd = si_enabled inputData) /\
       flags (snd r) =
         (flags s ++ [mkFlag (fresh_id (next_id s)) organizationId featureId
                        (si_enabled inputData) (clock s) None])%list /\
       (forall inputData' : SetOrganizationFeatureInput,
          fst (setOrganizationFeature_main organizationId featureId inputData' (snd r)) =
          inl (RError "Organization feature already exists" 409))).
Proof.
  intros organizationId featureId inputData s.
  unfold setOrganizationFeature_main; run_monad.
  split; [|split; [|split; [|split]]].
  - intros Hf; simpl; rewrite Hf; reflexivity.
  - intros f Hf Ha; simpl; rewrite Hf, Ha; reflexivity.
  - intros f Hf Ha Ho; simpl; rewrite Hf, Ha; simpl; rewrite Ho; reflexivity.
  - intros f o x Hf Ha Ho Hx; simpl; rewrite Hf, Ha; simpl; rewrite Ho.
    unfold flag_key in Hx; rewrite Hx; reflexivity.
  - intros f o Hf Ha Ho Hx; simpl; rewrite Hf, Ha; simpl; rewrite Ho.
    unfold flag_key in Hx; rewrite Hx; simpl.
    split; [eexists; split; reflexivity|split; [reflexivity|]].
    intros inputData'; simpl.
    rewrite Hf, Ha; simpl; rewrite Ho; simpl.
    unfold find_rows in *; rewrite find_app, Hx; simpl.
    pose proof (flag_key_matches (mkFlag (fresh_id (next_id s)) organizationId
                  featureId (si_enabled inputData) (clock s) None)) as Hk.
    unfold flag_key in Hk; simpl in Hk |- *; rewrite Hk; reflexivity.
Qed.

(** ** C6 *)

Definition dup_store : Store :=
  store0 true [flag_o1_f1 "x1" true; flag_o1_f1 "x2" false].

Lemma find_none_intro {A} (p : A -> bool) (l : list A) :
  (forall y, In y l -> p y = false) -> find p l = None.
Proof.
  induction l as [|a l IH]; intros H; simpl; [reflexivity|].
  rewrite (H a (or_introl eq_refl)); apply IH; intros y Hy; apply H; right; exact Hy.
Qed.

(** Outcome of the main remove logic as the endpoint returns it. *)
Definition remove_response (r : (response json Success + Success) * Store)
    : response json Success * Store :=
  match r with
  | (inl e, s') => (e, s')
  | (inr _, s') => (RData (mkSuccess true), s')
  end.

Lemma removeOrganizationFeature_admin (ss : Session) (u : User) (o f : string)
    (s : Store) :
  find_rows user_get [where_eq "id" (VStr (user_id ss))] (users s) = Some u ->
  u_role u = "admin" ->
  removeOrganizationFeature no_hooks (Some ss) o f s =
  remove_response (remove_flag_main "organizationFeature" "Organization feature not found" o f s).
Proof.
  intros Hu Hr.
  unfold removeOrganizationFeature, require_admin_exact; run_monad; simpl.
  rewrite Hu, Hr; simpl.
  destruct (remove_flag_main _ _ o f s) as [[e|v] s']; reflexivity.
Qed.

Lemma removeFeatureFlag_admin (ss : Session) (u : User) (o f : string)
    (s : Store) :
  find_rows user_get [where_eq "id" (VStr (user_id ss))] (users s) = Some u ->
  u_role u = "admin" ->
  removeFeatureFlag no_hooks (Some ss) o f s =
  remove_response (remove_flag_main "featureFlag" "Feature flag not found" o f s).
Proof.
  intros Hu Hr.
  unfold removeFeatureFlag, require_admin_exact; run_monad; simpl.
  rewrite Hu, Hr; simpl.
  destruct (remove_flag_main _ _ o f s) as [[e|v] s']; reflexivity.
Qed.

Lemma remove_flag_main_none (model msg o f : string) (s : Store) :
  find_rows flag_get (flag_key o f) (flags s) = None ->
  remove_flag_main model msg o f s = (inl (RError msg 404), s).
Proof.
  intros Hx; unfold remove_flag_main; run_monad; unfold flag_key in Hx.
  simpl; rewrite Hx; reflexivity.
Qed.

Lemma remove_flag_main_some (model msg o f : string) (s : Store) (x : Flag) :
  find_rows flag_get (flag_key o f) (flags s) = Some x ->
  remove_flag_main model msg o f s =
  (inr (mkSuccess true),
   mkStore (features s)
     (filter (fun y => negb (where_matches flag_get [where_eq "id" (VStr (ff_id x))] y))
        (flags s))
     (users s) (members s) (organizations s) (next_id s) (clock s)
     (writes s ++ [WDelete model [where_eq "id" (VStr (ff_id x))]])).
Proof.
  intros Hx; unfold remove_flag_main; run_monad; unfold flag_key in Hx.
  simpl; rewrite Hx; reflexivity.
Qed.

Lemma id_matches_self (x : Flag) :
  where_matches flag_get [where_eq "id" (VStr (ff_id x))] x = true.
Proof.
  unfold where_matches, clause_matches, where_eq; simpl.
  rewrite String.eqb_refl; reflexivity.
Qed.

(** With at most one row for the pair, deleting the found row by its id
    leaves no row for the pair. *)
Lemma remove_by_id_clears_pair (o f : string) (l : list Flag) (x : Flag) :
  length (filter_rows flag_get (flag_key o f) l) <= 1 ->
  find_rows flag_get (flag_key o f) l = Some x ->
  find_rows flag_get (flag_key o f)
    (filter (fun y => negb (where_matches flag_get [where_eq "id" (VStr (ff_id x))] y)) l)
  = None.
Proof.
  intros Hlen Hx.
  unfold find_rows, filter_rows in *.
  apply find_some in Hx as [Hin Hpx].
  apply find_none_intro; intros y Hy.
  apply filter_In in Hy as [Hyl Hyid].
  destruct (where_matches flag_get (flag_key o f) y) eqn:Hpy; [|reflexivity].
  exfalso.
  assert (Hxin : In x (filter (where_matches flag_get (flag_key o f)) l))
    by (apply filter_In; auto).
  assert (Hyin : In y (filter (where_matches flag_get (flag_key o f)) l))
    by (apply filter_In; auto).
  destruct (filter (where_matches flag_get (flag_key o f)) l) as [|a [|b r]] eqn:E.
  - contradiction.
  - destruct Hxin as [<-|[]]; destruct Hyin as [<-|[]].
    rewrite id_matches_self in Hyid; discriminate.
  - simpl in Hlen; lia.
Qed.

(** C6 (counterexample).  The store holds no unique constraint on
    (organization, feature), so it can hold two rows for (o1, f1) (the
    duplicate-flag race of concurrent set calls); then two consecutive
    remove calls by an admin both succeed, each deleting one row by id. *)
Lemma C6_two_removals_both_succeed_on_duplicates :
  fst (removeOrganizationFeature no_hooks (Some admin_session) "o1" "f1" dup_store)
    = RData (mkSuccess true) /\
  fst (removeOrganizationFeature no_hooks (Some admin_session) "o1" "f1"
         (snd (removeOrganizationFeature no_hooks (Some admin_session) "o1" "f1"
                 dup_store)))
    = RData (mkSuccess true).
Proof. split; reflexivity. Qed.

(** C6 (amended).  For an admin caller, in both remove endpoints:
    with no row for (P, F) the call fails NotFound and leaves the store
    unchanged; with a row it issues exactly one delete, keyed by that
    row's internal id; and when the store holds at most one row for
    (P, F), a second consecutive remove call fails NotFound, so two calls
    never both succeed. *)
Theorem C6_remove_flag_by_id :
  forall (s : Store) (ss : Session) (u : User) (o f : string),
    find_rows user_get [where_eq "id" (VStr (user_id ss))] (users s) = Some u ->
    u_role u = "admin" ->
    (find_rows flag_get (flag_key o f) (flags s) = None ->
       removeOrganizationFeature no_hooks (Some ss) o f s =
         (RError "Organization feature not found" 404, s) /\
       removeFeatureFlag no_hooks (Some ss) o f s =
         (RError "Feature flag not found" 404, s)) /\
    (forall x, find_rows flag_get (flag_key o f) (flags s) = Some x ->
       writes (snd (removeOrganizationFeature no_hooks (Some ss) o f s)) =
         (writes s ++ [WDelete "organizationFeature" [where_eq "id" (VStr (ff_id x))]])%list /\
       writes (snd (removeFeatureFlag no_hooks (Some ss) o f s)) =
         (writes s ++ [WDelete "featureFlag" [where_eq "id" (VStr (ff_id x))]])%list) /\
    (length (filter_rows flag_get (flag_key o f) (flags s)) <= 1 ->
       fst (removeOrganizationFeature no_hooks (Some ss) o f
              (snd (removeOrganizationFeature no_hooks (Some ss) o f s))) =
         RError "Organization feature not found" 404 /\
       fst (removeFeatureFlag no_hooks (Some ss) o f
              (snd (removeFeatureFlag no_hooks (Some ss) o f s))) =
         RError "Feature flag not found" 404).
Proof.
  intros s ss u o f Hu Hr.
  rewrite !(removeOrganizationFeature_admin ss u o f s Hu Hr),
          !(removeFeatureFlag_admin ss u o f s Hu Hr).
  split; [|split].
  - intros Hx; rewrite !remove_flag_main_none by exact Hx; split; reflexivity.
  - intros x Hx; rewrite !(remove_flag_main_some _ _ o f s x Hx); split; reflexivity.
  - intros Hlen.
    destruct (find_rows flag_get (flag_key o f) (flags s)) as [x|] eqn:Hx.
    + rewrite !(remove_flag_main_some _ _ o f s x Hx); cbn [remove_response snd].
      pose proof (remove_by_id_clears_pair o f (flags s) x Hlen Hx) as Hc.
      split.
      * rewrite (removeOrganizationFeature_admin ss u); [|exact Hu|exact Hr].
        rewrite remove_flag_main_none by exact Hc; reflexivity.
      * rewrite (removeFeatureFlag_admin ss u); [|exact Hu|exact Hr].
        rewrite remove_flag_main_none by exact Hc; reflexivity.
    + rewrite !remove_flag_main_none by exact Hx; cbn [remove_response snd].
      rewrite (removeOrganizationFeature_admin ss u o f s Hu Hr),
              (removeFeatureFlag_admin ss u o f s Hu Hr).
      rewrite !remove_flag_main_none by exact Hx; split; reflexivity.
Qed.

(** ** C7 *)

(** C7 (counterexample).  Updating feature f1 with only
    [{ description: "x" }] changes the description and leaves
    [updatedAt] as it was: the update object has no [updatedAt] and the
    schema gives the column no update default. *)
Lemma C7_update_keeps_updatedAt :
  let s := store0 true [] in
  let r := updateFeature no_hooks (Some admin_session) "f1"
             (mkUpdateFeatureInput None (Some (Some "x")) None) s in
  fst r = RBare (Some (mkFeature "f1" "beta" "Beta" (Some "x") true 0 None)) /\
  features (snd r) = [mkFeature "f1" "beta" "Beta" (Some "x") true 0 None] /\
  f_updatedAt (feature_beta true) = None.
Proof. split; [|split]; reflexivity. Qed.

(** C7 (amended).  For an admin caller whose update reaches an existing
    feature, exactly the rows with that id are patched; in the patched
    row each of displayName, description and active takes the request's
    value when present (including null and false) and keeps its prior
    value when omitted; name, id, createdAt and updatedAt are not
    written. *)
Theorem C7_partial_update :
  forall (hooks : UpdateFeatureHooks) (ss : Session) (u : User) (s : Store)
         (featureId : string) (body : UpdateFeatureInput) (f : Feature),
    before hooks = None ->
    find_rows user_get [where_eq "id" (VStr (user_id ss))] (users s) = Some u ->
    str_includes "admin" (u_role u) = true ->
    find_rows feature_get [where_eq "id" (VStr featureId)] (features s) = Some f ->
    let r := updateFeature hooks (Some ss) featureId body s in
    features (snd r) =
      map (fun g => if where_matches feature_get [where_eq "id" (VStr featureId)] g
                    then apply_patch (update_patch body) g else g) (features s) /\
    writes (snd r) =
      (writes s ++ [WUpdate "feature" [where_eq "id" (VStr featureId)]])%list /\
    (forall g, let g' := apply_patch (update_patch body) g in
       f_displayName g' =
         match ui_displayName body with Some d => d | None => f_displayName g end /\
       f_description g' =
         match ui_description body with Some d => d | None => f_description g end /\
       f_active g' = match ui_active body with Some a => a | None => f_active g end /\
       f_id g' = f_id g /\ f_name g' = f_name g /\
       f_createdAt g' = f_createdAt g /\ f_updatedAt g' = f_updatedAt g).
Proof.
  intros hooks ss u s featureId body f Hb Hu Ha Hf r.
  assert (Hr : snd r =
    mkStore (map (fun g => if where_matches feature_get
                                [where_eq "id" (VStr featureId)] g
                           then apply_patch (update_patch body) g else g) (features s))
      (flags s) (users s) (members s) (organizations s) (next_id s) (clock s)
      (writes s ++ [WUpdate "feature" [where_eq "id" (VStr featureId)]])).
  { subst r; unfold updateFeature; rewrite Hb; simpl.
    unfold require_admin_includes; run_monad; simpl.
    rewrite Hu, Ha; simpl; rewrite Hf; reflexivity. }
  rewrite Hr; split; [reflexivity|split; [reflexivity|]].
  intros g; simpl; repeat split.
Qed.

(** ** C2 *)

Definition skip_with_data {BA T AA A} (x : T) : Hooks BA T AA A :=
  mkHooks (Some (fun _ => mkBeforeHookResult (Some x) None (Some true))) None.

(** C2 (code_bug).  A before-hook returning [{ skip: true, data: "kept" }]
    has its data dropped by delete-feature and by the remove-flag
    endpoints of organization-features.ts and feature-flags.ts: each
    answers [{ data: { success: true } }], with the store unchanged;
    the get-flags read of the same file answers the hook's data. *)
Theorem C2_delete_skip_ignores_hook_data :
  deleteFeature (skip_with_data (JStr "kept")) (Some admin_session) "f1" (store0 true [])
    = (RData (mkSuccess true), store0 true []) /\
  removeOrganizationFeature (skip_with_data (JStr "kept")) (Some admin_session)
    "o1" "f1" (store0 true [flag_o1_f1 "x1" true])
    = (RData (mkSuccess true), store0 true [flag_o1_f1 "x1" true]) /\
  removeFeatureFlag (skip_with_data (JStr "kept")) (Some admin_session)
    "o1" "f1" (store0 true [flag_o1_f1 "x1" true])
    = (RData (mkSuccess true), store0 true [flag_o1_f1 "x1" true]) /\
  getOrganizationFeatures (skip_with_data (JStr "kept")) (Some admin_session)
    "o1" (store0 true [flag_o1_f1 "x1" true])
    = (RSkipped (JStr "kept"), store0 true [flag_o1_f1 "x1" true]).
Proof. repeat split. Qed.

(** X17.  For a request with a session, in every endpoint a before-hook
    outcome with [skip = true] and no error leaves the store untouched (no
    read, no write) and answers [{ data: X }] for create, update, toggle
    and set, [{ data: X || [] }] for the list and get reads, and
    [{ data: { success: true } }] for delete-feature and the two remove
    endpoints, whatever X is. *)
Theorem skip_short_circuit :
  (forall (h : CreateFeatureHooks) (ss : Session) (body : CreateFeatureInput) (s : Store),
     skip (runBeforeHook (before h) (body, mkHookContext (Some ss))) = true -> error (runBeforeHook (before h) (body, mkHookContext (Some ss))) = None ->
     createFeature h (Some ss) body s = (RSkipped (data (runBeforeHook (before h) (body, mkHookContext (Some ss)))), s)) /\
  (forall (h : ListFeaturesHooks) (ss : Session) (s : Store),
     skip (runBeforeHook (before h) (mkHookContext (Some ss))) = true -> error (runBeforeHook (before h) (mkHookContext (Some ss))) = None ->
     listFeatures h (Some ss) s = (RSkipped (or_empty (data (runBeforeHook (before h) (mkHookContext (Some ss))))), s)) /\
  (forall (h : UpdateFeatureHooks) (ss : Session) (featureId : string) (body : UpdateFeatureInput) (s : Store),
     skip (runBeforeHook (before h) (featureId, body, mkHookContext (Some ss))) = true -> error (runBeforeHook (before h) (featureId, body, mkHookContext (Some ss))) = None ->
     updateFeature h (Some ss) featureId body s = (RSkipped (data (runBeforeHook (before h) (featureId, body, mkHookContext (Some ss)))), s)) /\
  (forall (h : DeleteFeatureHooks) (ss : Session) (featureId : string) (s : Store),
     skip (runBeforeHook (before h) (featureId, mkHookContext (Some ss))) = true -> error (runBeforeHook (before h) (featureId, mkHookContext (Some ss))) = None ->
     deleteFeature h (Some ss) featureId s = (RData (mkSuccess true), s)) /\
  (forall (h : ToggleFeatureHooks) (ss : Session) (featureId : string) (bodyActive : bool) (s : Store),
     skip (runBeforeHook (before h) (featureId, bodyActive, mkHookContext (Some ss))) = true -> error (runBeforeHook (before h) (featureId, bodyActive, mkHookContext (Some ss))) = None ->
     toggleFeature h (Some ss) featureId bodyActive s = (RSkipped (data (runBeforeHook (before h) (featureId, bodyActive, mkHookContext (Some ss)))), s)) /\
  (forall (h : SetOrganizationFeatureHooks) (ss : Session) (organizationId featureId : string) (body : SetOrganizationFeatureInput) (s : Store),
     skip (runBeforeHook (before h) (organizationId, featureId, body, mkHookContext (Some ss))) = true -> error (runBeforeHook (before h) (organizationId, featureId, body, mkHookContext (Some ss))) = None ->
     setOrganizationFeature h (Some ss) organizationId featureId body s = (RSkipped (data (runBeforeHook (before h) (organizationId, featureId, body, mkHookContext (Some ss)))), s)) /\
  (forall (h : RemoveFlagHooks) (ss : Session) (organizationId featureId : string) (s : Store),
     skip (runBeforeHook (before h) (organizationId, featureId, mkHookContext (Some ss))) = true -> error (runBeforeHook (before h) (organizationId, featureId, mkHookContext (Some ss))) = None ->
     removeOrganizationFeature h (Some ss) organizationId featureId s = (RData (mkSuccess true), s)) /\
  (forall (h : GetOrgFlagsHooks) (ss : Session) (organizationId : string) (s : Store),
     skip (runBeforeHook (before h) (organizationId, mkHookContext (Some ss))) = true -> error (runBeforeHook (before h) (organizationId, mkHookContext (Some ss))) = None ->
     getOrganizationFeatures h (Some ss) organizationId s = (RSkipped (or_empty (data (runBeforeHook (before h) (organizationId, mkHookContext (Some ss))))), s)) /\
  (forall (h : GetAvailableHooks) (ss : Session) (s : Store),
     skip (runBeforeHook (before h) (mkHookContext (Some ss))) = true -> error (runBeforeHook (before h) (mkHookContext (Some ss))) = None ->
     getAvailableFeatures h (Some ss) s = (RSkipped (or_empty (data (runBeforeHook (before h) (mkHookContext (Some ss))))), s)) /\
  (forall (h : GetOrgFlagsHooks) (ss : Session) (organizationId : string) (s : Store),
     skip (runBeforeHook (before h) (organizationId, mkHookContext (Some ss))) = true -> error (runBeforeHook (before h) (organizationId, mkHookContext (Some ss))) = None ->
     getFeatureFlags h (Some ss) organizationId s = (RSkipped (or_empty (data (runBeforeHook (before h) (organizationId, mkHookContext (Some ss))))), s)) /\
  (forall (h : GetAvailableHooks) (ss : Session) (s : Store),
     skip (runBeforeHook (before h) (mkHookContext (Some ss))) = true -> error (runBeforeHook (before h) (mkHookContext (Some ss))) = None ->
     getAvailableFeatures_ff h (Some ss) s = (RSkipped (or_empty (data (runBeforeHook (before h) (mkHookContext (Some ss))))), s)) /\
  (forall (h : RemoveFlagHooks) (ss : Session) (organizationId featureId : string) (s : Store),
     skip (runBeforeHook (before h) (organizationId, featureId, mkHookContext (Some ss))) = true -> error (runBeforeHook (before h) (organizationId, featureId, mkHookContext (Some ss))) = None ->
     removeFeatureFlag h (Some ss) organizationId featureId s = (RData (mkSuccess true), s)).
Proof.
  repeat split; intros *; intros Hs He;
    unfold createFeature, listFeatures, updateFeature, deleteFeature, toggleFeature, setOrganizationFeature, removeOrganizationFeature, getOrganizationFeatures, getAvailableFeatures, getFeatureFlags, getAvailableFeatures_ff, removeFeatureFlag, sessionMiddleware; simpl;
    rewrite Hs, He; reflexivity.
Qed.

(** ** C8 *)

(** C8.  Every endpoint runs [sessionMiddleware] before its handler: a
    request with no session is rejected with [APIError("UNAUTHORIZED")]
    (401) before the before-hook runs and before any store access, for
    every endpoint, every hook configuration and every store. *)
Theorem C8_session_checked_first :
  (forall (h : CreateFeatureHooks) (body : CreateFeatureInput) (s : Store),
     createFeature h None body s = (RThrow (APIError "UNAUTHORIZED" 401), s)) /\
  (forall (h : ListFeaturesHooks) (s : Store),
     listFeatures h None s = (RThrow (APIError "UNAUTHORIZED" 401), s)) /\
  (forall (h : UpdateFeatureHooks) (featureId : string) (body : UpdateFeatureInput) (s : Store),
     updateFeature h None featureId body s = (RThrow (APIError "UNAUTHORIZED" 401), s)) /\
  (forall (h : DeleteFeatureHooks) (featureId : string) (s : Store),
     deleteFeature h None featureId s = (RThrow (APIError "UNAUTHORIZED" 401), s)) /\
  (forall (h : ToggleFeatureHooks) (featureId : string) (bodyActive : bool) (s : Store),
     toggleFeature h None featureId bodyActive s = (RThrow (APIError "UNAUTHORIZED" 401), s)) /\
  (forall (h : GetAvailableFeatureRowsHooks) (s : Store),
     features_getAvailableFeatures h None s = (RThrow (APIError "UNAUTHORIZED" 401), s)) /\
  (forall (h : SetOrganizationFeatureHooks) (organizationId featureId : string) (body : SetOrganizationFeatureInput) (s : Store),
     setOrganizationFeature h None organizationId featureId body s = (RThrow (APIError "UNAUTHORIZED" 401), s)) /\
  (forall (h : RemoveFlagHooks) (organizationId featureId : string) (s : Store),
     removeOrganizationFeature h None organizationId featureId s = (RThrow (APIError "UNAUTHORIZED" 401), s)) /\
  (forall (h : GetOrgFlagsHooks) (organizationId : string) (s : Store),
     getOrganizationFeatures h None organizationId s = (RThrow (APIError "UNAUTHORIZED" 401), s)) /\
  (forall (h : GetAvailableHooks) (s : Store),
     getAvailableFeatures h None s = (RThrow (APIError "UNAUTHORIZED" 401), s)) /\
  (forall (h : GetOrgFlagsHooks) (organizationId : string) (s : Store),
     getFeatureFlags h None organizationId s = (RThrow (APIError "UNAUTHORIZED" 401), s)) /\
  (forall (h : GetAvailableHooks) (s : Store),
     getAvailableFeatures_ff h None s = (RThrow (APIError "UNAUTHORIZED" 401), s)) /\
  (forall (h : RemoveFlagHooks) (organizationId featureId : string) (s : Store),
     removeFeatureFlag h None organizationId featureId s = (RThrow (APIError "UNAUTHORIZED" 401), s)).
Proof. repeat split. Qed.

(** ** Witnesses *)

Definition before_error_hooks : CreateFeatureHooks :=
  mkHooks (Some (fun _ => mkBeforeHookResult None (Some (mkHookError "nope" None)) None))
    None.

Definition input_beta : CreateFeatureInput := mkCreateFeatureInput "beta" "Beta" None None.

Lemma skip_short_circuit_witness :
  createFeature (skip_with_data input_beta) (Some admin_session) input_beta
    (store0 true []) =
  (RSkipped (Some input_beta), store0 true []).
Proof. apply (proj1 skip_short_circuit); reflexivity. Defined.


Lemma C4_witness :
  fst (setOrganizationFeature_main "o1" "f1" (mkSetInput false)
         (snd (setOrganizationFeature_main "o1" "f1" (mkSetInput true) (store0 true []))))
  = inl (RError "Organization feature already exists" 409).
Proof.
  exact (proj2 (proj2 (proj2 (proj2 (proj2 (proj2 (C4_set_flag_validation "o1" "f1"
           (mkSetInput true) (store0 true []))))) (feature_beta true)
           (mkOrganization "o1") eq_refl eq_refl eq_refl eq_refl))
           (mkSetInput false)).
Defined.

Lemma C5_witness :
  createFeature before_error_hooks (Some admin_session) input_beta (store0 true []) =
  (RError "nope" 400, store0 true []).
Proof.
  exact (proj1 (proj2 (proj2 (proj2 (proj2 C5_before_hook_normalisation))))
           before_error_hooks admin_session input_beta (store0 true [])
           (mkHookError "nope" None) eq_refl).
Defined.

Lemma C6_witness :
  fst (removeOrganizationFeature no_hooks (Some admin_session) "o1" "f1"
         (snd (removeOrganizationFeature no_hooks (Some admin_session) "o1" "f1"
                 (store0 true [flag_o1_f1 "x1" true]))))
  = RError "Organization feature not found" 404.
Proof.
  exact (proj1 (proj2 (proj2 (C6_remove_flag_by_id (store0 true [flag_o1_f1 "x1" true])
           admin_session (mkUser "u1" "admin") "o1" "f1" eq_refl eq_refl))
           (le_n 1))).
Defined.

Lemma C7_witness :
  features (snd (updateFeature no_hooks (Some admin_session) "f1"
                   (mkUpdateFeatureInput None (Some None) (Some false)) (store0 true [])))
  = [mkFeature "f1" "beta" "Beta" None false 0 None].
Proof.
  rewrite (proj1 (C7_partial_update no_hooks admin_session (mkUser "u1" "admin")
             (store0 true []) "f1" (mkUpdateFeatureInput None (Some None) (Some false))
             (feature_beta true) eq_refl eq_refl eq_refl eq_refl)).
  reflexivity.
Defined.

Definition store_no_member : Store :=
  mkStore [feature_beta true] [flag_o1_f1 "x1" true] [mkUser "u2" "user"] []
    [mkOrganization "o1"] 0 0 [].

Lemma C9_witness :
  getAvailableFeatures no_hooks (Some (mkSession "u2" (Some "o1"))) store_no_member =
  (RData [], store_no_member).
Proof.
  exact (proj1 (C9_non_member_reads no_hooks no_hooks no_hooks no_hooks "u2" "o1"
           store_no_member eq_refl eq_refl eq_refl eq_refl eq_refl)).
Defined.


(** * Further properties of the endpoints *)

(** ** The join of the read paths *)

Lemma map_get_some (l : list Feature) (k : string) (f : Feature) :
  map_get l k = Some f -> In f l /\ f_id f = k.
Proof.
  induction l as [|a r IH]; simpl; [discriminate|].
  destruct (map_get r k) as [g|] eqn:Hr.
  - intros [= <-]; destruct (IH eq_refl); auto.
  - destruct (String.eqb_spec (f_id a) k); [intros [= <-]; auto|discriminate].
Qed.

Lemma map_get_in (l : list Feature) (k : string) (f : Feature) :
  NoDup (map f_id l) -> In f l -> f_id f = k -> map_get l k = Some f.
Proof.
  induction l as [|a r IH]; simpl; [contradiction|].
  intros Hnd Hin Hk; apply NoDup_cons_iff in Hnd as [Hnot Hnd].
  destruct Hin as [->|Hin].
  - destruct (map_get r k) as [g|] eqn:Hr.
    + apply map_get_some in Hr as [Hg Hgk]; exfalso; apply Hnot.
      rewrite Hk, <- Hgk; apply in_map; exact Hg.
    + rewrite Hk, String.eqb_refl; reflexivity.
  - rewrite (IH Hnd Hin Hk); reflexivity.
Qed.

Lemma NoDup_map_filter {A B} (g : A -> B) (p : A -> bool) (l : list A) :
  NoDup (map g l) -> NoDup (map g (filter p l)).
Proof.
  induction l as [|a r IH]; simpl; [auto|].
  intros Hnd; apply NoDup_cons_iff in Hnd as [Hnot Hnd].
  destruct (p a); simpl; [|auto].
  constructor; [|auto].
  intros Hin; apply Hnot; apply in_map_iff in Hin as [y [Hy Hyin]].
  apply filter_In in Hyin as [Hyin _]; rewrite <- Hy; apply in_map; exact Hyin.
Qed.

Lemma join_flags_In (L : list Flag) (F : list Feature) (w : FlagWithDetails) :
  In w (join_flags L F) <->
  exists x f, In x L /\ map_get F (ff_featureId x) = Some f /\ w = with_details x (Some f).
Proof.
  unfold join_flags; rewrite in_map_iff; split.
  - intros [x [Hw Hx]]; apply filter_In in Hx as [Hx Hp].
    destruct (map_get F (ff_featureId x)) as [f|] eqn:Hm; [|discriminate].
    exists x, f; auto.
  - intros [x [f [Hx [Hm ->]]]]; exists x; rewrite Hm; split; [reflexivity|].
    apply filter_In; rewrite Hm; auto.
Qed.

Lemma flag_live_where (o : string) (x : Flag) :
  where_matches flag_get [where_eq "organizationId" (VStr o);
                          where_eq "enabled" (VBool true)] x =
  String.eqb o (ff_organizationId x) && ff_enabled x.
Proof.
  unfold where_matches, clause_matches, where_eq; simpl.
  destruct (String.eqb o (ff_organizationId x)), (ff_enabled x); reflexivity.
Qed.

Lemma feature_live_where (ids : list string) (f : Feature) :
  where_matches feature_get [mkWhere "id" (in_ ids); where_eq "active" (VBool true)] f =
  existsb (String.eqb (f_id f)) ids && f_active f.
Proof.
  unfold where_matches, clause_matches, where_eq; simpl.
  destruct (existsb (String.eqb (f_id f)) ids), (f_active f); reflexivity.
Qed.

(** The join computed by [live_flags "active" o] on a store. *)
Definition live_active (o : string) (s : Store) : list FlagWithDetails :=
  let L := filter_rows flag_get
             [where_eq "organizationId" (VStr o); where_eq "enabled" (VBool true)]
             (flags s) in
  join_flags L
    (filter_rows feature_get
       [mkWhere "id" (in_ (map ff_featureId L)); where_eq "active" (VBool true)]
       (features s)).

(** Filtering on [active], the feature query passes the field check. *)
Lemma live_flags_active_eq (o : string) (s : Store) :
  live_flags "active" o s = (inl (live_active o s), s).
Proof. reflexivity. Qed.

(** The flags of [live_flags "active"] are exactly the enabled flags of
    the organization whose feature exists and is active, each joined with
    that feature (feature ids being unique). *)
Lemma live_flags_active_In (o : string) (s : Store) (w : FlagWithDetails) :
  NoDup (map f_id (features s)) ->
  (In w (live_active o s) <->
   exists x f, In x (flags s) /\ ff_organizationId x = o /\ ff_enabled x = true /\
     In f (features s) /\ f_id f = ff_featureId x /\ f_active f = true /\
     w = with_details x (Some f)).
Proof.
  intros Hnd; unfold live_active.
  rewrite join_flags_In; unfold filter_rows.
  set (L := filter _ (flags s)).
  assert (HL : forall x, In x L <-> In x (flags s) /\ ff_organizationId x = o /\
                                   ff_enabled x = true).
  { intros x; subst L; rewrite filter_In, flag_live_where, andb_true_iff,
      String.eqb_eq; split; intros [? [? ?]]; auto. }
  set (F := filter _ (features s)).
  assert (HF : forall f, In f F <-> In f (features s) /\
                 existsb (String.eqb (f_id f)) (map ff_featureId L) = true /\
                 f_active f = true).
  { intros f; subst F; rewrite filter_In, feature_live_where, andb_true_iff; tauto. }
  assert (HndF : NoDup (map f_id F)) by (apply NoDup_map_filter; exact Hnd).
  split.
  - intros [x [f [Hx [Hm ->]]]].
    apply map_get_some in Hm as [Hf Hid].
    apply HL in Hx as [Hx [Ho He]]; apply HF in Hf as [Hf [_ Ha]].
    exists x, f; repeat split; auto.
  - intros [x [f [Hx [Ho [He [Hf [Hid [Ha ->]]]]]]]].
    assert (HxL : In x L) by (apply HL; auto).
    exists x, f; split; [exact HxL|split; [|reflexivity]].
    apply map_get_in; [exact HndF| |exact Hid].
    apply HF; split; [exact Hf|split; [|exact Ha]].
    apply existsb_exists; exists (ff_featureId x); split.
    + apply in_map; exact HxL.
    + rewrite Hid; apply String.eqb_refl.
Qed.

Lemma getOrganizationFeatures_member (s : Store) (ss : Session) (o : string)
    (m : Member) :
  find_rows member_get (member_where o (user_id ss)) (members s) = Some m ->
  getOrganizationFeatures no_hooks (Some ss) o s =
  (RData (live_active o s), s).
Proof.
  intros Hm; unfold getOrganizationFeatures; simpl.
  unfold bind at 1, findOne_member at 1; rewrite Hm; reflexivity.
Qed.

Lemma getFeatureFlags_member (s : Store) (ss : Session) (o : string)
    (m : Member) :
  find_rows member_get (member_where o (user_id ss)) (members s) = Some m ->
  getFeatureFlags no_hooks (Some ss) o s =
  (RData (live_active o s), s).
Proof.
  intros Hm; unfold getFeatureFlags; simpl.
  unfold bind at 1, findOne_member at 1; rewrite Hm; reflexivity.
Qed.

Lemma getAvailableFeatures_ff_member (s : Store) (ss : Session) (o : string)
    (m : Member) :
  activeOrganizationId ss = Some o ->
  find_rows member_get (member_where o (user_id ss)) (members s) = Some m ->
  getAvailableFeatures_ff no_hooks (Some ss) s =
  (RData (live_active o s), s).
Proof.
  intros Ho Hm; unfold getAvailableFeatures_ff; simpl; rewrite Ho.
  unfold bind at 1, findOne_member at 1; rewrite Hm; reflexivity.
Qed.

(** An enabled flag of organization [o] whose feature exists and is
    active, joined with that feature. *)
Definition live_flag_of (s : Store) (o : string) (w : FlagWithDetails) : Prop :=
  exists x f, In x (flags s) /\ ff_organizationId x = o /\ ff_enabled x = true /\
    In f (features s) /\ f_id f = ff_featureId x /\ f_active f = true /\
    w = with_details x (Some f).

(** X1.  The organization-features list read, the feature-flags list read and
    the feature-flags get-available read (for the active organization)
    answer a member with exactly the live flags of the organization; they
    write nothing. *)
Theorem member_reads_return_live_flags (s : Store) (ss : Session) (o : string)
    (m : Member) :
  NoDup (map f_id (features s)) ->
  find_rows member_get (member_where o (user_id ss)) (members s) = Some m ->
  (exists l, getOrganizationFeatures no_hooks (Some ss) o s = (RData l, s) /\
             forall w, In w l <-> live_flag_of s o w) /\
  (exists l, getFeatureFlags no_hooks (Some ss) o s = (RData l, s) /\
             forall w, In w l <-> live_flag_of s o w) /\
  (activeOrganizationId ss = Some o ->
   exists l, getAvailableFeatures_ff no_hooks (Some ss) s = (RData l, s) /\
             forall w, In w l <-> live_flag_of s o w).
Proof.
  intros Hnd Hm.
  assert (Hl : forall w, In w (live_active o s) <-> live_flag_of s o w)
    by (intros w; apply (live_flags_active_In o s w Hnd)).
  split; [|split].
  - exists (live_active o s); split; [|exact Hl].
    apply (getOrganizationFeatures_member s ss o m Hm).
  - exists (live_active o s); split; [|exact Hl].
    apply (getFeatureFlags_member s ss o m Hm).
  - intros Ho; exists (live_active o s); split; [|exact Hl].
    apply (getAvailableFeatures_ff_member s ss o m Ho Hm).
Qed.

(** ** The organization-features get-available read *)

(** X2.  Without hooks, the get-available read of organization-features.ts
    throws the adapter's error "Field enabled not found in model features"
    to every member of the caller's active organization, whatever the
    store holds, and writes nothing: its feature query filters on
    [enabled], a field the feature schema does not have. *)
Theorem getAvailableFeatures_member_throws (ss : Session) (o : string)
    (m : Member) (s : Store) :
  activeOrganizationId ss = Some o ->
  find_rows member_get (member_where o (user_id ss)) (members s) = Some m ->
  getAvailableFeatures no_hooks (Some ss) s =
  (RThrow (BetterAuthError "Field enabled not found in model features"), s).
Proof.
  intros Ho Hm; unfold getAvailableFeatures; simpl; rewrite Ho.
  unfold bind at 1, findOne_member at 1; rewrite Hm; reflexivity.
Qed.

(** ** Reads and before-hook errors *)

Ltac split_matches :=
  repeat match goal with
  | |- context [match ?x with _ => _ end] => destruct x; simpl
  end.

(** X4.  The list and get reads of the three files never change the store,
    whatever the hooks, the session and the store. *)
Theorem reads_never_write :
  (forall (h : ListFeaturesHooks) sess s, snd (listFeatures h sess s) = s) /\
  (forall (h : GetAvailableFeatureRowsHooks) sess s,
     snd (features_getAvailableFeatures h sess s) = s) /\
  (forall (h : GetOrgFlagsHooks) sess o s, snd (getOrganizationFeatures h sess o s) = s) /\
  (forall (h : GetAvailableHooks) sess s, snd (getAvailableFeatures h sess s) = s) /\
  (forall (h : GetOrgFlagsHooks) sess o s, snd (getFeatureFlags h sess o s) = s) /\
  (forall (h : GetAvailableHooks) sess s, snd (getAvailableFeatures_ff h sess s) = s).
Proof.
  repeat split; intros *;
    unfold listFeatures, features_getAvailableFeatures, getOrganizationFeatures,
      getAvailableFeatures, getFeatureFlags, getAvailableFeatures_ff,
      require_admin_includes, live_flags; run_monad; simpl;
    split_matches; reflexivity.
Qed.

(** X5.  For a request with a session, in every endpoint of features.ts
    and organization-features.ts and in the remove and get endpoints of
    feature-flags.ts, a before-hook error aborts the call with that error's
    message and status (400 when the status is missing or 0), without
    touching the store (before the handler's own [session.user] check). *)
Theorem before_hook_error_aborts_every_endpoint :
  (forall (h : CreateFeatureHooks) (ss : Session) (body : CreateFeatureInput) (s : Store) (e : HookError),
     error (runBeforeHook (before h) (body, mkHookContext (Some ss))) = Some e ->
     createFeature h (Some ss) body s = (before_error e, s)) /\
  (forall (h : ListFeaturesHooks) (ss : Session) (s : Store) (e : HookError),
     error (runBeforeHook (before h) (mkHookContext (Some ss))) = Some e ->
     listFeatures h (Some ss) s = (before_error e, s)) /\
  (forall (h : UpdateFeatureHooks) (ss : Session) (featureId : string) (body : UpdateFeatureInput) (s : Store) (e : HookError),
     error (runBeforeHook (before h) (featureId, body, mkHookContext (Some ss))) = Some e ->
     updateFeature h (Some ss) featureId body s = (before_error e, s)) /\
  (forall (h : DeleteFeatureHooks) (ss : Session) (featureId : string) (s : Store) (e : HookError),
     error (runBeforeHook (before h) (featureId, mkHookContext (Some ss))) = Some e ->
     deleteFeature h (Some ss) featureId s = (before_error e, s)) /\
  (forall (h : ToggleFeatureHooks) (ss : Session) (featureId : string) (bodyActive : bool) (s : Store) (e : HookError),
     error (runBeforeHook (before h) (featureId, bodyActive, mkHookContext (Some ss))) = Some e ->
     toggleFeature h (Some ss) featureId bodyActive s = (before_error e, s)) /\
  (forall (h : GetAvailableFeatureRowsHooks) (ss : Session) (s : Store) (e : HookError),
     error (runBeforeHook (before h) (mkHookContext (Some ss))) = Some e ->
     features_getAvailableFeatures h (Some ss) s = (before_error e, s)) /\
  (forall (h : SetOrganizationFeatureHooks) (ss : Session) (organizationId featureId : string) (body : SetOrganizationFeatureInput) (s : Store) (e : HookError),
     error (runBeforeHook (before h) (organizationId, featureId, body, mkHookContext (Some ss))) = Some e ->
     setOrganizationFeature h (Some ss) organizationId featureId body s = (before_error e, s)) /\
  (forall (h : RemoveFlagHooks) (ss : Session) (organizationId featureId : string) (s : Store) (e : HookError),
     error (runBeforeHook (before h) (organizationId, featureId, mkHookContext (Some ss))) = Some e ->
     removeOrganizationFeature h (Some ss) organizationId featureId s = (before_error e, s)) /\
  (forall (h : GetOrgFlagsHooks) (ss : Session) (organizationId : string) (s : Store) (e : HookError),
     error (runBeforeHook (before h) (organizationId, mkHookContext (Some ss))) = Some e ->
     getOrganizationFeatures h (Some ss) organizationId s = (before_error e, s)) /\
  (forall (h : GetAvailableHooks) (ss : Session) (s : Store) (e : HookError),
     error (runBeforeHook (before h) (mkHookContext (Some ss))) = Some e ->
     getAvailableFeatures h (Some ss) s = (before_error e, s)) /\
  (forall (h : GetOrgFlagsHooks) (ss : Session) (organizationId : string) (s : Store) (e : HookError),
     error (runBeforeHook (before h) (organizationId, mkHookContext (Some ss))) = Some e ->
     getFeatureFlags h (Some ss) organizationId s = (before_error e, s)) /\
  (forall (h : GetAvailableHooks) (ss : Session) (s : Store) (e : HookError),
     error (runBeforeHook (before h) (mkHookContext (Some ss))) = Some e ->
     getAvailableFeatures_ff h (Some ss) s = (before_error e, s)) /\
  (forall (h : RemoveFlagHooks) (ss : Session) (organizationId featureId : string) (s : Store) (e : HookError),
     error (runBeforeHook (before h) (organizationId, featureId, mkHookContext (Some ss))) = Some e ->
     removeFeatureFlag h (Some ss) organizationId featureId s = (before_error e, s)).
Proof.
  repeat split; intros *; intros He;
    pose proof (runBeforeHook_error_skip _ _ _ He) as Hs;
    unfold createFeature, listFeatures, updateFeature, deleteFeature, toggleFeature,
      features_getAvailableFeatures, setOrganizationFeature,
      removeOrganizationFeature, getOrganizationFeatures, getAvailableFeatures,
      getFeatureFlags, getAvailableFeatures_ff, removeFeatureFlag, sessionMiddleware;
    simpl;
    rewrite Hs, He; reflexivity.
Qed.

(** ** Create-feature validation *)

(** X6.  An admin's create-feature call with no before-hook fails with 400
    when the name or the display name is empty, and with 409 when a
    feature of that name exists; neither failure touches the store. *)
Theorem createFeature_rejects (hooks : CreateFeatureHooks) (ss : Session)
    (body : CreateFeatureInput) (s : Store) (u : User) :
  before hooks = None ->
  find_rows user_get [where_eq "id" (VStr (user_id ss))] (users s) = Some u ->
  str_includes "admin" (u_role u) = true ->
  ((String.eqb (ci_name body) "" || String.eqb (ci_displayName body) "") = true ->
   createFeature hooks (Some ss) body s =
   (RError "name and displayName are required" 400, s)) /\
  (forall g,
   String.eqb (ci_name body) "" = false ->
   String.eqb (ci_displayName body) "" = false ->
   find_rows feature_get [where_eq "name" (VStr (ci_name body))] (features s) = Some g ->
   createFeature hooks (Some ss) body s =
   (RError "Feature with this name already exists" 409, s)).
Proof.
  intros Hb Hu Hadm; split.
  - intros He; unfold createFeature; rewrite Hb; simpl.
    unfold require_admin_includes; run_monad; simpl.
    rewrite Hu, Hadm, He; reflexivity.
  - intros g Hn Hd Hex; unfold createFeature; rewrite Hb; simpl.
    unfold require_admin_includes; run_monad; simpl.
    rewrite Hu, Hadm, Hn, Hd; simpl; rewrite Hex; reflexivity.
Qed.

Lemma name_matches_self (g : Feature) :
  where_matches feature_get [where_eq "name" (VStr (f_name g))] g = true.
Proof.
  unfold where_matches, clause_matches, where_eq; simpl.
  rewrite String.eqb_refl; reflexivity.
Qed.

(** X7.  A successful create-feature call appends one feature row carrying the
    input's name, logs one create, takes one fresh id and changes nothing
    else; repeating the same call then fails with 409 and leaves the store
    as the first call left it. *)
Theorem createFeature_once (hooks : CreateFeatureHooks) (ss : Session)
    (body : CreateFeatureInput) (s : Store) (u : User) :
  before hooks = None ->
  find_rows user_get [where_eq "id" (VStr (user_id ss))] (users s) = Some u ->
  str_includes "admin" (u_role u) = true ->
  String.eqb (ci_name body) "" = false ->
  String.eqb (ci_displayName body) "" = false ->
  find_rows feature_get [where_eq "name" (VStr (ci_name body))] (features s) = None ->
  (exists g, f_name g = ci_name body /\ f_id g = fresh_id (next_id s) /\
     snd (createFeature hooks (Some ss) body s) =
     mkStore (features s ++ [g]) (flags s) (users s) (members s) (organizations s)
       (S (next_id s)) (clock s) (writes s ++ [WCreate "feature"])) /\
  createFeature hooks (Some ss) body (snd (createFeature hooks (Some ss) body s)) =
  (RError "Feature with this name already exists" 409,
   snd (createFeature hooks (Some ss) body s)).
Proof.
  intros Hb Hu Hadm Hn Hd Hex.
  assert (H1 : exists g, f_name g = ci_name body /\ f_id g = fresh_id (next_id s) /\
     snd (createFeature hooks (Some ss) body s) =
     mkStore (features s ++ [g]) (flags s) (users s) (members s) (organizations s)
       (S (next_id s)) (clock s) (writes s ++ [WCreate "feature"])).
  { unfold createFeature; rewrite Hb; simpl.
    unfold require_admin_includes; run_monad; simpl.
    rewrite Hu, Hadm, Hn, Hd; simpl; rewrite Hex; simpl.
    unfold create_feature; simpl.
    eexists; split; [|split]; [| |reflexivity]; reflexivity. }
  split; [exact H1|].
  destruct H1 as [g [Hg [_ Hs1]]]; rewrite Hs1.
  unfold createFeature; rewrite Hb; simpl.
  unfold require_admin_includes; run_monad; simpl.
  rewrite Hu, Hadm, Hn, Hd; simpl.
  unfold find_rows at 1; rewrite find_app; fold (find_rows feature_get
    [where_eq "name" (VStr (ci_name body))] (features s)).
  assert (Hm : where_matches feature_get [where_eq "name" (VStr (ci_name body))] g = true)
    by (rewrite <- Hg; apply name_matches_self).
  rewrite Hex; cbn [find]; rewrite Hm; reflexivity.
Qed.

(** ** Admin checks *)

(** X8.  The endpoints of features.ts refuse (403, store untouched) a caller
    whose user row is missing or whose role does not contain "admin";
    the set and remove endpoints refuse a caller whose role is not
    exactly "admin". *)
Theorem admin_checks_refuse (s : Store) (ss : Session) :
  ((forall u, find_rows user_get [where_eq "id" (VStr (user_id ss))] (users s) = Some u ->
              str_includes "admin" (u_role u) = false) ->
   (forall (h : CreateFeatureHooks) body,
      skip (runBeforeHook (before h) (body, mkHookContext (Some ss))) = false ->
      createFeature h (Some ss) body s = (forbidden_admin, s)) /\
   (forall (h : ListFeaturesHooks),
      skip (runBeforeHook (before h) (mkHookContext (Some ss))) = false ->
      listFeatures h (Some ss) s = (forbidden_admin, s)) /\
   (forall (h : UpdateFeatureHooks) fid body,
      skip (runBeforeHook (before h) (fid, body, mkHookContext (Some ss))) = false ->
      updateFeature h (Some ss) fid body s = (forbidden_admin, s)) /\
   (forall (h : DeleteFeatureHooks) fid,
      skip (runBeforeHook (before h) (fid, mkHookContext (Some ss))) = false ->
      deleteFeature h (Some ss) fid s = (forbidden_admin, s)) /\
   (forall (h : ToggleFeatureHooks) fid b,
      skip (runBeforeHook (before h) (fid, b, mkHookContext (Some ss))) = false ->
      toggleFeature h (Some ss) fid b s = (forbidden_admin, s))) /\
  ((forall u, find_rows user_get [where_eq "id" (VStr (user_id ss))] (users s) = Some u ->
              u_role u <> "admin") ->
   (forall (h : SetOrganizationFeatureHooks) o f body,
      skip (runBeforeHook (before h) (o, f, body, mkHookContext (Some ss))) = false ->
      setOrganizationFeature h (Some ss) o f body s = (forbidden_admin, s)) /\
   (forall (h : RemoveFlagHooks) o f,
      skip (runBeforeHook (before h) (o, f, mkHookContext (Some ss))) = false ->
      removeOrganizationFeature h (Some ss) o f s = (forbidden_admin, s)) /\
   (forall (h : RemoveFlagHooks) o f,
      skip (runBeforeHook (before h) (o, f, mkHookContext (Some ss))) = false ->
      removeFeatureFlag h (Some ss) o f s = (forbidden_admin, s))).
Proof.
  split; intros Hrole; repeat split; intros *; intros Hs;
    unfold createFeature, listFeatures, updateFeature, deleteFeature, toggleFeature,
      setOrganizationFeature, removeOrganizationFeature, removeFeatureFlag,
      require_admin_includes, require_admin_exact;
    rewrite Hs; run_monad; simpl;
    destruct (find_rows user_get _ (users s)) as [u|] eqn:E; try reflexivity;
    first [pose proof (Hrole u eq_refl) as Hr | pose proof (Hrole u E) as Hr].
  all: try (rewrite Hr; reflexivity).
  all: destruct (String.eqb_spec (u_role u) "admin"); [contradiction|reflexivity].
Qed.

(** ** Missing features *)

(** X9.  For an admin, update, toggle and delete of a feature id that no row
    has fail with 404 and leave the store untouched. *)
Theorem missing_feature_not_found (s : Store) (ss : Session) (u : User) (fid : string) :
  find_rows user_get [where_eq "id" (VStr (user_id ss))] (users s) = Some u ->
  str_includes "admin" (u_role u) = true ->
  find_rows feature_get [where_eq "id" (VStr fid)] (features s) = None ->
  (forall (h : UpdateFeatureHooks) body,
     skip (runBeforeHook (before h) (fid, body, mkHookContext (Some ss))) = false ->
     updateFeature h (Some ss) fid body s = (RError "Feature not found" 404, s)) /\
  (forall (h : ToggleFeatureHooks) b,
     skip (runBeforeHook (before h) (fid, b, mkHookContext (Some ss))) = false ->
     toggleFeature h (Some ss) fid b s = (RError "Feature not found" 404, s)) /\
  (forall (h : DeleteFeatureHooks),
     skip (runBeforeHook (before h) (fid, mkHookContext (Some ss))) = false ->
     deleteFeature h (Some ss) fid s = (RError "Feature not found" 404, s)).
Proof.
  intros Hu Hadm Hf; repeat split; intros *; intros Hs;
    unfold updateFeature, toggleFeature, deleteFeature, require_admin_includes;
    rewrite Hs; run_monad; simpl; rewrite Hu, Hadm; simpl; rewrite Hf; reflexivity.
Qed.

(** ** Toggle and delete *)

Lemma id_where (fid : string) (f : Feature) :
  where_matches feature_get [where_eq "id" (VStr fid)] f = String.eqb fid (f_id f).
Proof.
  unfold where_matches, clause_matches, where_eq; simpl.
  destruct (String.eqb fid (f_id f)); reflexivity.
Qed.

Lemma find_map_patch (p : Feature -> bool) (F : Feature -> Feature) (l : list Feature) :
  (forall f, p (F f) = p f) ->
  find p (map (fun f => if p f then F f else f) l) = option_map F (find p l).
Proof.
  intros HF; induction l as [|a r IH]; simpl; [reflexivity|].
  destruct (p a) eqn:Ha; simpl.
  - rewrite HF, Ha; reflexivity.
  - rewrite Ha; exact IH.
Qed.

(** [feature] with [active] set, as the toggle's update writes it. *)
Definition set_active (a : bool) (f : Feature) : Feature :=
  apply_patch (mkFeaturePatch None None (Some a)) f.

Lemma toggleFeature_found (h : ToggleFeatureHooks) (ss : Session) (u : User)
    (s : Store) (fid : string) (b : bool) (g : Feature) :
  skip (runBeforeHook (before h) (fid, b, mkHookContext (Some ss))) = false ->
  find_rows user_get [where_eq "id" (VStr (user_id ss))] (users s) = Some u ->
  str_includes "admin" (u_role u) = true ->
  find_rows feature_get [where_eq "id" (VStr fid)] (features s) = Some g ->
  let a := match data (runBeforeHook (before h) (fid, b, mkHookContext (Some ss))) with
           | Some d => d | None => b end in
  toggleFeature h (Some ss) fid b s =
  (respond_after RBare Some
     (runAfterHook (after h) (Some (set_active a g), fid, a, mkHookContext (Some ss)))
     (Some (set_active a g)),
   mkStore (map (fun f => if String.eqb fid (f_id f) then set_active a f else f)
              (features s))
     (flags s) (users s) (members s) (organizations s) (next_id s) (clock s)
     (writes s ++ [WUpdate "feature" [where_eq "id" (VStr fid)]])).
Proof.
  intros Hs Hu Hadm Hg a.
  unfold toggleFeature, require_admin_includes; rewrite Hs; run_monad; simpl.
  rewrite Hu, Hadm; simpl; rewrite Hg.
  unfold update_feature; simpl; rewrite Hg; simpl.
  assert (Hmap : forall l : list Feature,
    map (fun f => if where_matches feature_get [where_eq "id" (VStr fid)] f
                  then apply_patch (mkFeaturePatch None None (Some a)) f else f) l =
    map (fun f => if String.eqb fid (f_id f) then set_active a f else f) l)
    by (intros l; apply map_ext; intros f; rewrite id_where; reflexivity).
  subst a; rewrite Hmap; reflexivity.
Qed.

(** X10.  A toggle by an admin of an existing feature sets [active] on every
    row with that id to the value the before-hook's data gives, even when
    it is [false], and otherwise to the body's value; it changes no other
    field and no other row, writes one update, and without an after-hook
    answers the first such row as updated. *)
Theorem toggleFeature_sets_active (h : ToggleFeatureHooks) (ss : Session) (u : User)
    (s : Store) (fid : string) (b : bool) (g : Feature) :
  skip (runBeforeHook (before h) (fid, b, mkHookContext (Some ss))) = false ->
  find_rows user_get [where_eq "id" (VStr (user_id ss))] (users s) = Some u ->
  str_includes "admin" (u_role u) = true ->
  find_rows feature_get [where_eq "id" (VStr fid)] (features s) = Some g ->
  forall a, a = match data (runBeforeHook (before h) (fid, b, mkHookContext (Some ss))) with
                | Some d => d | None => b end ->
  features (snd (toggleFeature h (Some ss) fid b s)) =
    map (fun f => if String.eqb fid (f_id f)
                  then mkFeature (f_id f) (f_name f) (f_displayName f) (f_description f)
                         a (f_createdAt f) (f_updatedAt f)
                  else f) (features s) /\
  flags (snd (toggleFeature h (Some ss) fid b s)) = flags s /\
  writes (snd (toggleFeature h (Some ss) fid b s)) =
    (writes s ++ [WUpdate "feature" [where_eq "id" (VStr fid)]])%list /\
  (after h = None ->
   fst (toggleFeature h (Some ss) fid b s) = RBare (Some (set_active a g))).
Proof.
  intros Hs Hu Hadm Hg a Ha.
  rewrite (toggleFeature_found h ss u s fid b g Hs Hu Hadm Hg); simpl.
  rewrite <- Ha; split; [reflexivity|split; [reflexivity|split; [reflexivity|]]].
  intros Hn; rewrite Hn; reflexivity.
Qed.

(** X11.  An admin's toggle of an existing feature to [false] makes the next
    set-flag call on it fail with 400 (feature not enabled globally),
    whatever the [enabled] requested; a toggle to [true] lets a set-flag
    call for an existing organization without a flag for the pair succeed
    with the requested [enabled] and the now active feature. *)
Theorem toggle_then_set (ss : Session) (u : User) (s : Store) (fid o : string)
    (g : Feature) (inp : SetOrganizationFeatureInput) :
  find_rows user_get [where_eq "id" (VStr (user_id ss))] (users s) = Some u ->
  str_includes "admin" (u_role u) = true ->
  find_rows feature_get [where_eq "id" (VStr fid)] (features s) = Some g ->
  fst (setOrganizationFeature_main o fid inp
         (snd (toggleFeature no_hooks (Some ss) fid false s))) =
  inl (RError "Feature is not enabled globally" 400) /\
  (forall org, find_rows organization_get [where_eq "id" (VStr o)] (organizations s) = Some org ->
   find_rows flag_get (flag_key o fid) (flags s) = None ->
   exists w, fst (setOrganizationFeature_main o fid inp
                    (snd (toggleFeature no_hooks (Some ss) fid true s))) = inr w /\
     wd_organizationId w = o /\ wd_featureId w = fid /\
     wd_enabled w = si_enabled inp /\ wd_feature w = Some (set_active true g)).
Proof.
  intros Hu Hadm Hg.
  assert (Hfind : forall a,
    find_rows feature_get [where_eq "id" (VStr fid)]
      (map (fun f => if String.eqb fid (f_id f) then set_active a f else f) (features s))
    = Some (set_active a g)).
  { intros a; unfold find_rows.
    assert (Hm : map (fun f => if String.eqb fid (f_id f) then set_active a f else f)
                   (features s) =
                 map (fun f => if where_matches feature_get [where_eq "id" (VStr fid)] f
                               then set_active a f else f) (features s))
      by (apply map_ext; intros f; rewrite id_where; reflexivity).
    rewrite Hm, find_map_patch; [unfold find_rows in Hg; rewrite Hg; reflexivity|].
    intros f; rewrite !id_where; reflexivity. }
  split.
  - rewrite (toggleFeature_found no_hooks ss u s fid false g eq_refl Hu Hadm Hg); simpl.
    unfold setOrganizationFeature_main; run_monad; simpl.
    rewrite (Hfind false); reflexivity.
  - intros org Ho Hx.
    rewrite (toggleFeature_found no_hooks ss u s fid true g eq_refl Hu Hadm Hg); simpl.
    unfold setOrganizationFeature_main; run_monad; simpl.
    rewrite (Hfind true); simpl; rewrite Ho.
    unfold flag_key in Hx; cbn [flags]; rewrite Hx; simpl.
    cbn [features]; rewrite (Hfind true).
    eexists; split; [reflexivity|]; simpl; repeat split.
Qed.

(** X12.  An admin's delete of an existing feature removes every row with that
    id, keeps the other rows in order and writes one delete; a second
    delete of the same id then fails with 404 and writes nothing. *)
Theorem deleteFeature_removes (h : DeleteFeatureHooks) (ss : Session) (u : User)
    (s : Store) (fid : string) (g : Feature) :
  skip (runBeforeHook (before h) (fid, mkHookContext (Some ss))) = false ->
  find_rows user_get [where_eq "id" (VStr (user_id ss))] (users s) = Some u ->
  str_includes "admin" (u_role u) = true ->
  find_rows feature_get [where_eq "id" (VStr fid)] (features s) = Some g ->
  features (snd (deleteFeature h (Some ss) fid s)) =
    filter (fun f => negb (String.eqb fid (f_id f))) (features s) /\
  writes (snd (deleteFeature h (Some ss) fid s)) =
    (writes s ++ [WDelete "feature" [where_eq "id" (VStr fid)]])%list /\
  (forall h' : DeleteFeatureHooks,
   skip (runBeforeHook (before h') (fid, mkHookContext (Some ss))) = false ->
   deleteFeature h' (Some ss) fid (snd (deleteFeature h (Some ss) fid s)) =
   (RError "Feature not found" 404, snd (deleteFeature h (Some ss) fid s))).
Proof.
  intros Hs Hu Hadm Hg.
  assert (Hst : snd (deleteFeature h (Some ss) fid s) =
    mkStore (filter (fun f => negb (String.eqb fid (f_id f))) (features s))
      (flags s) (users s) (members s) (organizations s) (next_id s) (clock s)
      (writes s ++ [WDelete "feature" [where_eq "id" (VStr fid)]])).
  { unfold deleteFeature, require_admin_includes; rewrite Hs; run_monad; simpl.
    rewrite Hu, Hadm; simpl; rewrite Hg; unfold delete_feature; simpl.
    f_equal; apply filter_ext; intros f.
    pose proof (id_where fid f) as Hw; unfold where_matches in Hw; simpl in Hw.
    rewrite Hw; reflexivity. }
  rewrite Hst; split; [reflexivity|split; [reflexivity|]].
  intros h' Hs'.
  unfold deleteFeature at 1, require_admin_includes; rewrite Hs'; run_monad; simpl.
  rewrite Hu, Hadm; simpl.
  assert (Hn : find_rows feature_get [where_eq "id" (VStr fid)]
                 (filter (fun f => negb (String.eqb fid (f_id f))) (features s)) = None).
  { unfold find_rows; apply find_none_intro; intros f Hf.
    apply filter_In in Hf as [_ Hf]; rewrite id_where.
    destruct (String.eqb fid (f_id f)); [discriminate|reflexivity]. }
  rewrite Hn; reflexivity.
Qed.

(** ** The features list *)

Definition created_after (f g : Feature) : Prop := f_createdAt g <= f_createdAt f.

Lemma insert_desc_perm (f : Feature) (l : list Feature) :
  Permutation (insert_desc f l) (f :: l).
Proof.
  induction l as [|g r IH]; simpl; [auto|].
  destruct (Nat.leb (f_createdAt g) (f_createdAt f)); [auto|].
  eapply perm_trans; [apply perm_skip, IH|apply perm_swap].
Qed.

Lemma insert_desc_head (f g : Feature) (l : list Feature) :
  HdRel created_after g l -> created_after g f -> HdRel created_after g (insert_desc f l).
Proof.
  intros Hh Hgf; destruct l as [|a r]; simpl; [auto|].
  destruct (Nat.leb (f_createdAt a) (f_createdAt f)); [auto|].
  inversion Hh; auto.
Qed.

Lemma insert_desc_sorted (f : Feature) (l : list Feature) :
  Sorted created_after l -> Sorted created_after (insert_desc f l).
Proof.
  induction l as [|g r IH]; simpl; intros Hs; [auto|].
  destruct (Nat.leb (f_createdAt g) (f_createdAt f)) eqn:E.
  - apply Nat.leb_le in E; constructor; [exact Hs|constructor; exact E].
  - apply Nat.leb_gt in E; inversion Hs as [|? ? Hr Hh]; subst.
    constructor; [apply IH, Hr|].
    apply insert_desc_head; [exact Hh|unfold created_after; lia].
Qed.

Lemma sort_createdAt_desc_spec (l : list Feature) :
  Sorted created_after (sort_createdAt_desc l) /\
  Permutation (sort_createdAt_desc l) l.
Proof.
  induction l as [|f r [IHs IHp]]; simpl; [auto|].
  split; [apply insert_desc_sorted, IHs|].
  eapply perm_trans; [apply insert_desc_perm|apply perm_skip, IHp].
Qed.

Lemma filter_rows_nil {R} (get : R -> string -> option value) (l : list R) :
  filter_rows get [] l = l.
Proof. induction l as [|a r IH]; [reflexivity|unfold filter_rows in *; simpl; f_equal; exact IH]. Qed.

(** X13.  An admin's list-features call answers every feature row, each once,
    newest first (by [createdAt]), and writes nothing. *)
Theorem listFeatures_sorted (ss : Session) (u : User) (s : Store) :
  find_rows user_get [where_eq "id" (VStr (user_id ss))] (users s) = Some u ->
  str_includes "admin" (u_role u) = true ->
  exists l, listFeatures no_hooks (Some ss) s = (RBare l, s) /\
    Sorted created_after l /\ Permutation l (features s).
Proof.
  intros Hu Hadm; exists (sort_createdAt_desc (features s)).
  split; [|apply sort_createdAt_desc_spec].
  unfold listFeatures, require_admin_includes; run_monad; simpl.
  rewrite Hu, Hadm, filter_rows_nil; reflexivity.
Qed.

(** ** The get-available read of features.ts *)

Lemma filter_active_features (l : list Feature) :
  filter_rows feature_get [where_eq "active" (VBool true)] l = filter f_active l.
Proof.
  unfold filter_rows; apply filter_ext; intros f.
  unfold where_matches, clause_matches, where_eq; simpl.
  destruct (f_active f); reflexivity.
Qed.

(** X14.  Without hooks, the get-available read of features.ts answers, to any
    caller with a session (no role or membership check), the active
    feature rows in store order, and writes nothing. *)
Theorem features_getAvailableFeatures_active (ss : Session) (s : Store) :
  features_getAvailableFeatures no_hooks (Some ss) s =
  (RBare (filter f_active (features s)), s).
Proof.
  unfold features_getAvailableFeatures; run_monad; simpl.
  rewrite filter_active_features; reflexivity.
Qed.

(** ** At most one flag per pair *)

(** No two flag rows share an (organization, feature) pair. *)
Definition at_most_one_flag (l : list Flag) : Prop :=
  forall o f, length (filter_rows flag_get (flag_key o f) l) <= 1.

Lemma flag_key_where (o f : string) (x : Flag) :
  where_matches flag_get (flag_key o f) x =
  String.eqb o (ff_organizationId x) && String.eqb f (ff_featureId x).
Proof.
  unfold where_matches, flag_key, clause_matches, where_eq; simpl.
  destruct (String.eqb o (ff_organizationId x)), (String.eqb f (ff_featureId x));
    reflexivity.
Qed.

Lemma find_none_filter {A} (p : A -> bool) (l : list A) :
  find p l = None -> filter p l = [].
Proof.
  induction l as [|a r IH]; simpl; [auto|].
  destruct (p a); [discriminate|exact IH].
Qed.

Lemma filter_filter_length {A} (p q : A -> bool) (l : list A) :
  length (filter p (filter q l)) <= length (filter p l).
Proof.
  induction l as [|a r IH]; simpl; [auto|].
  destruct (q a), (p a) eqn:E; simpl; try rewrite E; simpl; lia.
Qed.

Lemma set_main_keeps_one (o f : string) (inp : SetOrganizationFeatureInput) (s : Store) :
  at_most_one_flag (flags s) ->
  at_most_one_flag (flags (snd (setOrganizationFeature_main o f inp s))).
Proof.
  intros H; unfold setOrganizationFeature_main; run_monad; simpl.
  destruct (find_rows feature_get _ (features s)) as [g|]; simpl; [|exact H].
  destruct (f_active g); simpl; [|exact H].
  destruct (find_rows organization_get _ (organizations s)); simpl; [|exact H].
  destruct (find_rows flag_get _ (flags s)) as [x|] eqn:Ex; simpl; [exact H|].
  intros o' f'; unfold filter_rows; rewrite filter_app, length_app; cbn [filter].
  rewrite flag_key_where; cbn [ff_organizationId ff_featureId].
  destruct (String.eqb_spec o' o) as [->|]; destruct (String.eqb_spec f' f) as [->|];
    simpl; try (rewrite Nat.add_0_r; apply H).
  change (filter (where_matches flag_get (flag_key o f)) (flags s)) with
    (filter_rows flag_get (flag_key o f) (flags s)).
  unfold filter_rows; rewrite find_none_filter; [simpl; lia|exact Ex].
Qed.

Lemma remove_main_keeps_one (model msg o f : string) (s : Store) :
  at_most_one_flag (flags s) ->
  at_most_one_flag (flags (snd (remove_flag_main model msg o f s))).
Proof.
  intros H; unfold remove_flag_main; run_monad; simpl.
  destruct (find_rows flag_get _ (flags s)) as [x|]; simpl; [|exact H].
  intros o' f'; unfold filter_rows; eapply Nat.le_trans;
    [apply filter_filter_length|apply H].
Qed.

Ltac split_until_main :=
  repeat match goal with
  | |- context [match ?x with _ => _ end] =>
      lazymatch x with
      | setOrganizationFeature_main _ _ _ _ => fail
      | remove_flag_main _ _ _ _ _ => fail
      | _ => destruct x; simpl
      end
  end.

(** X15.  Whatever the hooks and the caller, a set-flag call and the remove
    calls of both files keep at most one flag row per (organization,
    feature) pair when each pair had at most one row before. *)
Theorem flag_writes_keep_one_row (s : Store) :
  at_most_one_flag (flags s) ->
  (forall (h : SetOrganizationFeatureHooks) sess o f body,
     at_most_one_flag (flags (snd (setOrganizationFeature h sess o f body s)))) /\
  (forall (h : RemoveFlagHooks) sess o f,
     at_most_one_flag (flags (snd (removeOrganizationFeature h sess o f s)))) /\
  (forall (h : RemoveFlagHooks) sess o f,
     at_most_one_flag (flags (snd (removeFeatureFlag h sess o f s)))).
Proof.
  intros H; repeat split; intros *;
    unfold setOrganizationFeature, removeOrganizationFeature, removeFeatureFlag,
      require_admin_exact; run_monad; simpl; split_until_main;
    try exact H;
    match goal with
    | |- context [setOrganizationFeature_main ?a ?b ?c s] =>
        pose proof (set_main_keeps_one a b c s H) as K;
        destruct (setOrganizationFeature_main a b c s) as [[e|w] s']
    | |- context [remove_flag_main ?md ?m ?a ?b s] =>
        pose proof (remove_main_keeps_one md m a b s H) as K;
        destruct (remove_flag_main md m a b s) as [[e|w] s']
    end;
    split_matches; exact K.
Qed.

(** X16.  An admin changes a flag's [enabled] by removing it and setting it
    again: with at most one row for the pair, the remove succeeds, and
    the following set for the same pair (feature active, organization
    present) succeeds with a new row carrying the requested [enabled],
    which is then the row the pair looks up. *)
Theorem remove_then_set (s : Store) (ss : Session) (u : User) (o f : string)
    (g : Feature) (org : Organization) (x : Flag) (b : bool) :
  at_most_one_flag (flags s) ->
  find_rows user_get [where_eq "id" (VStr (user_id ss))] (users s) = Some u ->
  u_role u = "admin" ->
  find_rows feature_get [where_eq "id" (VStr f)] (features s) = Some g ->
  f_active g = true ->
  find_rows organization_get [where_eq "id" (VStr o)] (organizations s) = Some org ->
  find_rows flag_get (flag_key o f) (flags s) = Some x ->
  fst (removeOrganizationFeature no_hooks (Some ss) o f s) = RData (mkSuccess true) /\
  exists y,
    setOrganizationFeature no_hooks (Some ss) o f (mkSetInput b)
      (snd (removeOrganizationFeature no_hooks (Some ss) o f s)) =
    (RData (with_details y (Some g)),
     snd (setOrganizationFeature no_hooks (Some ss) o f (mkSetInput b)
            (snd (removeOrganizationFeature no_hooks (Some ss) o f s)))) /\
    ff_enabled y = b /\ ff_organizationId y = o /\ ff_featureId y = f /\
    find_rows flag_get (flag_key o f)
      (flags (snd (setOrganizationFeature no_hooks (Some ss) o f (mkSetInput b)
                     (snd (removeOrganizationFeature no_hooks (Some ss) o f s))))) =
    Some y.
Proof.
  intros Hone Hu Hr Hg Ha Ho Hx.
  rewrite (removeOrganizationFeature_admin ss u o f s Hu Hr).
  rewrite (remove_flag_main_some _ _ o f s x Hx); simpl.
  split; [reflexivity|].
  pose proof (remove_by_id_clears_pair o f (flags s) x (Hone o f) Hx) as Hn.
  set (rest := filter _ (flags s)) in *.
  unfold setOrganizationFeature, require_admin_exact; run_monad; simpl.
  rewrite Hu, Hr; simpl.
  unfold setOrganizationFeature_main; run_monad; simpl.
  rewrite Hg, Ha; simpl; rewrite Ho.
  unfold flag_key in Hn; cbn [flags]; rewrite Hn; simpl.
  cbn [features]; rewrite Hg.
  eexists; split; [reflexivity|]; simpl; repeat split.
  unfold find_rows; rewrite find_app; fold (find_rows flag_get (flag_key o f) rest).
  unfold flag_key at 1; rewrite Hn; cbn [find].
  rewrite flag_key_where; simpl; rewrite !String.eqb_refl; reflexivity.
Qed.

(** X3.  A caller whose session has no active organization gets [{ data: [] }]
    from both get-available reads when the before-hook does not
    short-circuit, whatever the after-hook, and the store is untouched. *)
Theorem get_available_without_active_organization (ss : Session) (s : Store)
    (h1 h2 : GetAvailableHooks) :
  activeOrganizationId ss = None ->
  skip (runBeforeHook (before h1) (mkHookContext (Some ss))) = false ->
  skip (runBeforeHook (before h2) (mkHookContext (Some ss))) = false ->
  getAvailableFeatures h1 (Some ss) s = (RData [], s) /\
  getAvailableFeatures_ff h2 (Some ss) s = (RData [], s).
Proof.
  intros Ho H1 H2; unfold getAvailableFeatures, getAvailableFeatures_ff.
  rewrite H1, H2, Ho; split; reflexivity.
Qed.

(** ** Instances of the properties above *)

Definition list_error_hooks : ListFeaturesHooks :=
  mkHooks (Some (fun _ => mkBeforeHookResult None (Some (mkHookError "nope" (Some 0%Z))) None))
    None.

Definition store_role (role : string) : Store :=
  mkStore [feature_beta true] [] [mkUser "u1" role] [mkMember "m1" "o1" "u1"]
    [mkOrganization "o1"] 0 0 [].

Lemma store0_one_flag : at_most_one_flag (flags (store0 true [flag_o1_f1 "x1" true])).
Proof.
  intros o f; unfold filter_rows; cbn [filter flags store0].
  destruct (where_matches flag_get (flag_key o f) (flag_o1_f1 "x1" true)); simpl; lia.
Qed.

Lemma member_reads_return_live_flags_witness :
  exists l, getOrganizationFeatures no_hooks (Some admin_session) "o1"
              (store0 true [flag_o1_f1 "x1" true]) =
            (RData l, store0 true [flag_o1_f1 "x1" true]) /\
    forall w, In w l <-> live_flag_of (store0 true [flag_o1_f1 "x1" true]) "o1" w.
Proof.
  apply (proj1 (member_reads_return_live_flags (store0 true [flag_o1_f1 "x1" true])
                  admin_session "o1" (mkMember "m1" "o1" "u1")
                  ltac:(repeat constructor; simpl; tauto) eq_refl)).
Defined.

Lemma getAvailableFeatures_member_throws_witness :
  getAvailableFeatures no_hooks (Some admin_session) (store0 true []) =
  (RThrow (BetterAuthError "Field enabled not found in model features"),
   store0 true []).
Proof.
  exact (getAvailableFeatures_member_throws admin_session "o1" (mkMember "m1" "o1" "u1")
           (store0 true []) eq_refl eq_refl).
Defined.

Lemma before_hook_error_aborts_every_endpoint_witness :
  listFeatures list_error_hooks (Some admin_session) (store0 true []) =
  (RError "nope" 400, store0 true []).
Proof.
  exact (proj1 (proj2 before_hook_error_aborts_every_endpoint) list_error_hooks
           admin_session (store0 true []) (mkHookError "nope" (Some 0%Z)) eq_refl).
Defined.

Lemma createFeature_rejects_witness :
  createFeature no_hooks (Some admin_session) (mkCreateFeatureInput "" "Beta" None None)
    (store0 true []) = (RError "name and displayName are required" 400, store0 true []) /\
  createFeature no_hooks (Some admin_session) input_beta (store0 true []) =
    (RError "Feature with this name already exists" 409, store0 true []).
Proof.
  split.
  - exact (proj1 (createFeature_rejects no_hooks admin_session
             (mkCreateFeatureInput "" "Beta" None None) (store0 true [])
             (mkUser "u1" "admin") eq_refl eq_refl eq_refl) eq_refl).
  - exact (proj2 (createFeature_rejects no_hooks admin_session input_beta
             (store0 true []) (mkUser "u1" "admin") eq_refl eq_refl eq_refl)
             (feature_beta true) eq_refl eq_refl eq_refl).
Defined.

Lemma createFeature_once_witness :
  createFeature no_hooks (Some admin_session) (mkCreateFeatureInput "gamma" "Gamma" None None)
    (snd (createFeature no_hooks (Some admin_session)
            (mkCreateFeatureInput "gamma" "Gamma" None None) (store0 true []))) =
  (RError "Feature with this name already exists" 409,
   snd (createFeature no_hooks (Some admin_session)
          (mkCreateFeatureInput "gamma" "Gamma" None None) (store0 true []))).
Proof.
  exact (proj2 (createFeature_once no_hooks admin_session
           (mkCreateFeatureInput "gamma" "Gamma" None None) (store0 true [])
           (mkUser "u1" "admin") eq_refl eq_refl eq_refl eq_refl eq_refl eq_refl)).
Defined.

Lemma admin_checks_refuse_witness :
  createFeature no_hooks (Some admin_session) input_beta (store_role "user") =
    (forbidden_admin, store_role "user") /\
  setOrganizationFeature no_hooks (Some admin_session) "o1" "f1" (mkSetInput true)
    (store_role "superadmin") = (forbidden_admin, store_role "superadmin").
Proof.
  split.
  - apply (proj1 (proj1 (admin_checks_refuse (store_role "user") admin_session)
             ltac:(intros u Hf; inversion Hf; reflexivity)) no_hooks input_beta eq_refl).
  - apply (proj1 (proj2 (admin_checks_refuse (store_role "superadmin") admin_session)
             ltac:(intros u Hf; inversion Hf; discriminate))
             no_hooks "o1" "f1" (mkSetInput true) eq_refl).
Defined.

Lemma missing_feature_not_found_witness :
  deleteFeature no_hooks (Some admin_session) "f9" (store0 true []) =
  (RError "Feature not found" 404, store0 true []).
Proof.
  exact (proj2 (proj2 (missing_feature_not_found (store0 true []) admin_session
           (mkUser "u1" "admin") "f9" eq_refl eq_refl eq_refl)) no_hooks eq_refl).
Defined.

Lemma toggleFeature_sets_active_witness :
  features (snd (toggleFeature no_hooks (Some admin_session) "f1" false (store0 true []))) =
  [mkFeature "f1" "beta" "Beta" None false 0 None].
Proof.
  rewrite (proj1 (toggleFeature_sets_active no_hooks admin_session (mkUser "u1" "admin")
             (store0 true []) "f1" false (feature_beta true) eq_refl eq_refl eq_refl
             eq_refl false eq_refl)).
  reflexivity.
Defined.

Lemma toggle_then_set_witness :
  fst (setOrganizationFeature_main "o1" "f1" (mkSetInput true)
         (snd (toggleFeature no_hooks (Some admin_session) "f1" false (store0 true [])))) =
  inl (RError "Feature is not enabled globally" 400).
Proof.
  exact (proj1 (toggle_then_set admin_session (mkUser "u1" "admin") (store0 true [])
           "f1" "o1" (feature_beta true) (mkSetInput true) eq_refl eq_refl eq_refl)).
Defined.

Lemma deleteFeature_removes_witness :
  features (snd (deleteFeature no_hooks (Some admin_session) "f1" (store0 true []))) = [].
Proof.
  rewrite (proj1 (deleteFeature_removes no_hooks admin_session (mkUser "u1" "admin")
             (store0 true []) "f1" (feature_beta true) eq_refl eq_refl eq_refl eq_refl)).
  reflexivity.
Defined.

Lemma listFeatures_sorted_witness :
  exists l, listFeatures no_hooks (Some admin_session) (store0 true []) =
            (RBare l, store0 true []) /\
    Sorted created_after l /\ Permutation l (features (store0 true [])).
Proof.
  exact (listFeatures_sorted admin_session (mkUser "u1" "admin") (store0 true [])
           eq_refl eq_refl).
Defined.

Lemma flag_writes_keep_one_row_witness :
  at_most_one_flag (flags (snd (setOrganizationFeature no_hooks (Some admin_session)
    "o1" "f1" (mkSetInput true) (store0 true [flag_o1_f1 "x1" true])))).
Proof.
  exact (proj1 (flag_writes_keep_one_row (store0 true [flag_o1_f1 "x1" true])
           store0_one_flag) no_hooks (Some admin_session) "o1" "f1" (mkSetInput true)).
Defined.

Lemma remove_then_set_witness :
  fst (removeOrganizationFeature no_hooks (Some admin_session) "o1" "f1"
         (store0 true [flag_o1_f1 "x1" true])) = RData (mkSuccess true).
Proof.
  exact (proj1 (remove_then_set (store0 true [flag_o1_f1 "x1" true]) admin_session
           (mkUser "u1" "admin") "o1" "f1" (feature_beta true) (mkOrganization "o1")
           (flag_o1_f1 "x1" true) false store0_one_flag eq_refl eq_refl eq_refl
           eq_refl eq_refl eq_refl)).
Defined.

Lemma get_available_without_active_organization_witness :
  getAvailableFeatures no_hooks (Some (mkSession "u1" None)) (store0 true []) =
  (RData [], store0 true []).
Proof.
  exact (proj1 (get_available_without_active_organization (mkSession "u1" None)
           (store0 true []) no_hooks no_hooks eq_refl eq_refl eq_refl)).
Defined.
